(** * YOLOv8 -> TFLite conversion pipeline: a shallow embedding

    Source: [scripts/enhanced_convert_yolov8_to_tflite.py].

    The script is sequential orchestration over third-party libraries
    (ultralytics, onnx, tensorflow, numpy, pathlib, the file system).  The
    embedding keeps the script's own control flow (try/except blocks, loops,
    early returns, the order of calls) and treats every library call as a
    call to an oracle that sees the file system and the history of earlier
    calls and either raises or returns.  All theorems are quantified over
    the oracle, so they hold whatever the libraries do.

    Conventions.
    - Exceptions are instances of Python's [Exception]; [except Exception]
      catches every one of them.
    - [logger.info]/[logger.error] append a structured record to a log; the
      record carries the interpolated values, not the formatted text.
    - [argparse] is outside the embedding: [main] starts from the parsed
      namespace.
    - A library call that raises leaves the file system as it found it,
      except for the calls that write step by step: a [mkdir] with parents
      or an export that raises leaves whatever it had created, and a
      [f.write] or [json.dump] that raises leaves in the opened file
      whatever had got through.
    - [Path.exists()] is a lookup in the file system: it answers and does
      not raise.
    - What a library does while one of its calls runs belongs to that call:
      when [converter.convert()] runs the representative dataset, the log
      line and the draws of the generator are not recorded separately. *)

From Stdlib Require Import ZArith Zpower Ascii String Bool Lia.
From Stdlib Require Import Floats.SpecFloat.
From stdpp Require Import gmap strings list fin_maps.

Open Scope string_scope.
Open Scope Z_scope.
Set Warnings "-register-all".

(** ** Data *)

(** Python floats and numpy float64 scalars are IEEE binary64 values. *)
Definition prec64 : Z := 53.
Definition emax64 : Z := 1024.

Definition float_of_Z (z : Z) : spec_float := binary_normalize prec64 emax64 z 0 false.
Definition py_sub (x y : spec_float) : spec_float := SFsub prec64 emax64 x y.
Definition py_mul (x y : spec_float) : spec_float := SFmul prec64 emax64 x y.
Definition py_div (x y : spec_float) : spec_float := SFdiv prec64 emax64 x y.

(** A decimal literal [m / 10^k] of the source, as the nearest binary64. *)
Definition float_lit (m : Z) (pow10 : Z) : spec_float :=
  py_div (float_of_Z m) (float_of_Z pow10).

(** numpy element types that occur as tensor dtypes. *)
Inductive DType :=
| np_float16 | np_float32 | np_float64 | np_uint8 | np_int8 | np_other (name : string).

Definition DType_eqb (a b : DType) : bool :=
  match a, b with
  | np_float16, np_float16 | np_float32, np_float32 | np_float64, np_float64
  | np_uint8, np_uint8 | np_int8, np_int8 => true
  | np_other x, np_other y => String.eqb x y
  | _, _ => false
  end.

(** An n-dimensional array: its shape, its element type, and its elements by
    flat index (indices at or beyond the product of the shape are unused). *)
Record NdArray := mkNdArray {
  shape : list Z;
  dtype : DType;
  data : N -> spec_float
}.

Definition size_of (shp : list Z) : Z := foldr Z.mul 1 shp.

(** Mantissa width and exponent bound of the binary floating-point dtypes. *)
Definition float_format (d : DType) : option (Z * Z) :=
  match d with
  | np_float16 => Some (11, 16)
  | np_float32 => Some (24, 128)
  | np_float64 => Some (53, 1024)
  | _ => None
  end.

(** Rounding (to nearest, ties to even) of a float into a narrower format. *)
Definition round_to (prec emax : Z) (x : spec_float) : spec_float :=
  match x with
  | S754_finite s m e => binary_round prec emax s m e
  | _ => x
  end.

(** Values that [json.dump] serialises. *)
Inductive PyVal :=
| PyInt (z : Z)
| PyFloat (f : spec_float)
| PyBool (b : bool)
| PyStr (s : string)
| PyList (l : list PyVal)
| PyDict (d : list (string * PyVal)).

(** [d[k]] on a dict literal: the last binding of [k] wins. *)
Fixpoint dict_get (d : list (string * PyVal)) (k : string) : option PyVal :=
  match d with
  | [] => None
  | (k', v) :: d' =>
      match dict_get d' k with
      | Some v' => Some v'
      | None => if String.eqb k' k then Some v else None
      end
  end.

Definition py_get (v : PyVal) (k : string) : option PyVal :=
  match v with PyDict d => dict_get d k | _ => None end.

(** What a path of the file system holds.  A JSON document is kept as the
    value that was dumped: [json.load] of the file gives that value back. *)
Inductive File :=
| Dir
| Blob (b : list Byte.byte)
| Json (v : PyVal).

Abbreviation FS := (gmap string File).

Definition json_load (f : File) : option PyVal :=
  match f with Json v => Some v | _ => None end.

(** Exceptions: those the script's own indexing can raise, the [ValueError]
    of [with_suffix] on a path [p] that has an empty name, and whatever a
    library raises. *)
Inductive Exn :=
| IndexError
| ValueError (p : string)
| LibError (msg : string).

Record YoloModel := mkYolo { names : list (Z * string) }.

(** [onnx_model.graph.input] and [.output], by name. *)
Record OnnxModel := mkOnnx { graph_input : list string; graph_output : list string }.

(** An entry of [interpreter.get_input_details()]. *)
Record TensorDetail := mkDetail { td_shape : list Z; td_dtype : DType; td_index : Z }.

Inductive Optimize := Optimize_DEFAULT.
Inductive OpsSet := TFLITE_BUILTINS | TFLITE_BUILTINS_INT8 | SELECT_TF_OPS.
Inductive TfDType := tf_float16 | tf_float32 | tf_uint8.

Inductive Level := INFO | ERROR.

Inductive Msg :=
| LoadingModel (p : string) | ModelLoaded | ModelClasses (n : list (Z * string))
| NumClasses (n : nat) | LoadFailed (e : Exn)
| ExportingOnnx (p : string) | ExportDone | ExportFailed (e : Exn)
| VerifyingOnnx | OnnxInput (n : string) | OnnxOutput (n : string) | OnnxVerifyFailed (e : Exn)
| Converting (quantization : string) | TfliteSaved (p : string) | ConvertFailed (e : Exn)
| GeneratingDataset
| VerifyingTflite (p : string) | InputShape (s : list Z) | InputType (d : DType)
| OutputShape (s : list Z) | OutputType (d : DType) | TestOutputShape (s : list Z)
| TfliteVerifyFailed (e : Exn)
| Benchmarking (p : string) | BenchResults (name : string)
| BenchAverage (avg std : spec_float) | BenchFps (fps : spec_float)
| BenchSize (st_size : Z) | BenchFailed (e : Exn)
| MetadataSaved (p : string)
| VariantHeader (d : string) | VariantFailed (d : string) | VariantDone (d : string)
| FileNotFound (p : string) | Completed | OutputDirectory (p : string)
| NextSteps | Step1 | Step2 | Step3 | ConversionFailed | FailedWith (e : Exn).

Abbreviation LogRec := (Level * Msg)%type.

(** The source of [np.random.random]: the array returned by the [k]-th call
    for a requested shape. *)
Definition RandomSource : Type := nat -> list Z -> NdArray.

(** A callable returning a generator: run to exhaustion against a random
    source it gives its log lines and the items it yields, in order. *)
Definition Generator : Type := RandomSource -> list LogRec * list (list NdArray).

(** The attributes this script assigns on a [TFLiteConverter]; [None] is an
    attribute left as the library created it. *)
Record TFLiteConverter := mkTFL {
  source_onnx : string;
  optimizations : option (list Optimize);
  supported_types : option (list TfDType);
  supported_ops : option (list OpsSet);
  representative_dataset : option Generator;
  inference_input_type : option TfDType;
  inference_output_type : option TfDType;
  experimental_new_converter : option bool;
  allow_custom_ops : option bool
}.

Definition fresh_converter (p : string) : TFLiteConverter :=
  mkTFL p None None None None None None None None.

(** ** Library calls

    One constructor per call the script makes into a library or the
    operating system, indexed by the type of what the call returns. *)
Inductive Call : Type -> Type :=
| Mkdir (p : string) : Call unit
| YOLO (p : string) : Call YoloModel
| ModelExport (m : YoloModel) (format : string) (imgsz : Z)
    (dynamic simplify : bool) (opset : Z) : Call FS
| Rename (src dst : string) : Call unit
| OnnxLoad (p : string) : Call OnnxModel
| OnnxCheckModel (m : OnnxModel) : Call unit
| FromOnnx (p : string) : Call unit
| Convert (c : TFLiteConverter) : Call (list Byte.byte)
| OpenFile (p : string) (mode : string) : Call unit
| FileWrite (p : string) (b : list Byte.byte) : Call unit
| JsonDump (p : string) (v : PyVal) (indent : Z) : Call unit
| Interpreter (p : string) : Call unit
| AllocateTensors : Call unit
| GetInputDetails : Call (list TensorDetail)
| GetOutputDetails : Call (list TensorDetail)
| RandomRandint (lo hi : Z) (size : list Z) (d : DType) : Call NdArray
| RandomRandom (size : list Z) : Call NdArray
| SetTensor (index : Z) (t : NdArray) : Call unit
| Invoke : Call unit
| GetTensor (index : Z) : Call NdArray
| TimeTime : Call spec_float
| Stat (p : string) : Call Z.

(** A call together with its outcome. *)
Inductive Event :=
| Ev : forall A : Type, Call A -> (Exn + A)%type -> Event.
Arguments Ev {A} c r.

(** The libraries.  [oracle] decides the outcome of a call from the file
    system and the calls made so far.  [ModelExport] returns the file system
    as the export leaves it.  For the calls that write and raise: [debris]
    is the file system a [mkdir] or an export leaves behind, [written] the
    number of bytes of the data that [f.write] got into the file, [dumped]
    the text that [json.dump] got into the file. *)
Record Lib := mkLib {
  Path : string -> string;
  joinpath : string -> string -> string;
  with_suffix : string -> string -> string;
  path_name : string -> string;
  path_parents : string -> list string;
  oracle : forall A, FS -> list Event -> Call A -> (Exn + A)%type;
  debris : forall A, FS -> list Event -> Call A -> FS;
  written : FS -> list Event -> string -> list Byte.byte -> nat;
  dumped : FS -> list Event -> string -> PyVal -> list Byte.byte;
  np_mean : list spec_float -> spec_float;
  np_std : list spec_float -> spec_float;
  astype_other : DType -> NdArray -> NdArray
}.

(** ** The world and the monad of the script *)

Record World := mkWorld {
  fs : FS;
  calls : list Event;
  logs : list LogRec
}.

Inductive Res (A : Type) :=
| Ret (a : A) (w : World)
| Raise (e : Exn) (w : World).
Arguments Ret {A} a w.
Arguments Raise {A} e w.

Definition M (A : Type) : Type := World -> Res A.

Global Instance M_ret : MRet M := fun A a w => Ret a w.
Global Instance M_bind : MBind M := fun A B f m w =>
  match m w with
  | Ret a w' => f a w'
  | Raise e w' => Raise e w'
  end.

Definition world_of {A} (r : Res A) : World :=
  match r with Ret _ w => w | Raise _ w => w end.

Definition returns {A} (r : Res A) : option A :=
  match r with Ret a _ => Some a | Raise _ _ => None end.

Definition raise {A} (e : Exn) : M A := fun w => Raise e w.

(** [try: body  except Exception as e: handler e] *)
Definition try_except {A} (body : M A) (handler : Exn -> M A) : M A := fun w =>
  match body w with
  | Ret a w' => Ret a w'
  | Raise e w' => handler e w'
  end.

Definition log (l : Level) (m : Msg) : M unit := fun w =>
  Ret tt (mkWorld (fs w) (calls w) (logs w ++ [(l, m)])).

Definition get_fs : M FS := fun w => Ret (fs w) w.

Definition set_fs (f : FS) : M unit := fun w =>
  Ret tt (mkWorld f (calls w) (logs w)).

(** [p.exists()] *)
Definition path_exists (p : string) : M bool := fun w =>
  Ret (bool_decide (is_Some (fs w !! p))) w.

(** [l[0]] *)
Definition index0 {A} (l : list A) : M A :=
  match l with
  | x :: _ => mret x
  | [] => raise IndexError
  end.

(** [for _ in range(n): body] *)
Fixpoint for_range (n : nat) (body : M unit) : M unit :=
  match n with
  | O => mret tt
  | S n' => body ;; for_range n' body
  end.

(** [for x in xs: acc = body acc x] *)
Fixpoint for_each {A B} (xs : list B) (acc : A) (body : A -> B -> M A) : M A :=
  match xs with
  | [] => mret acc
  | x :: xs' => acc' ← body acc x; for_each xs' acc' body
  end.

(** ** The script *)

Section Pipeline.

Variable L : Lib.

(** A library call: ask the oracle, record the call and its outcome. *)
Definition call {A} (c : Call A) : M A := fun w =>
  let r := oracle L A (fs w) (calls w) c in
  let w' := mkWorld (fs w) (calls w ++ [Ev c r]) (logs w) in
  match r with
  | inl e => Raise e w'
  | inr a => Ret a w'
  end.

(** A library call that writes: when it raises, the file system is what it
    [left] behind. *)
Definition call_leaving {A} (c : Call A) (left : FS -> list Event -> FS) : M A := fun w =>
  let r := oracle L A (fs w) (calls w) c in
  match r with
  | inl e => Raise e (mkWorld (left (fs w) (calls w)) (calls w ++ [Ev c r]) (logs w))
  | inr a => Ret a (mkWorld (fs w) (calls w ++ [Ev c r]) (logs w))
  end.

Definition call_writing {A} (c : Call A) : M A :=
  call_leaving c (fun f h => debris L A f h c).

(** [p.with_suffix(s)]: a path with an empty name has no suffix to replace. *)
Definition path_with_suffix (p s : string) : M string :=
  if String.eqb (path_name L p) "" then raise (ValueError p)
  else mret (with_suffix L p s).

(** [a.astype(d)] *)
Definition astype (d : DType) (a : NdArray) : NdArray :=
  match float_format d with
  | Some (prec, emax) => mkNdArray (shape a) d (fun i => round_to prec emax (data a i))
  | None => astype_other L d a
  end.

(** The directories [p.mkdir(parents=True, exist_ok=True)] leaves behind. *)
Definition mkdir_p (f : FS) (p : string) : FS :=
  foldr (fun q m => match m !! q with None => <[q := Dir]> m | Some _ => m end)
        f (p :: path_parents L p).

Record Converter := mkConverter {
  model_path : string;
  output_dir : string;
  model_name : string;
  input_size : Z;
  onnx_path : string;
  tflite_path : string;
  tflite_fp16_path : string;
  tflite_int8_path : string
}.

Definition __init__ (model_path output_dir model_name : string) : M Converter :=
  let model_path := Path L model_path in
  let output_dir := Path L output_dir in
  let input_size := 640 in
  call_writing (Mkdir output_dir) ;;
  f ← get_fs;
  set_fs (mkdir_p f output_dir) ;;
  mret (mkConverter model_path output_dir model_name input_size
          (joinpath L output_dir (model_name ++ ".onnx"))
          (joinpath L output_dir (model_name ++ ".tflite"))
          (joinpath L output_dir (model_name ++ "_fp16.tflite"))
          (joinpath L output_dir (model_name ++ "_int8.tflite"))).

Definition load_yolo_model (self : Converter) : M YoloModel :=
  try_except
    (log INFO (LoadingModel (model_path self)) ;;
     model ← call (YOLO (model_path self));
     log INFO ModelLoaded ;;
     log INFO (ModelClasses (names model)) ;;
     log INFO (NumClasses (length (names model))) ;;
     mret model)
    (fun e =>
     log ERROR (LoadFailed e) ;;
     raise e).

Definition _verify_onnx_model (self : Converter) : M bool :=
  try_except
    (log INFO VerifyingOnnx ;;
     onnx_model ← call (OnnxLoad (onnx_path self));
     call (OnnxCheckModel onnx_model) ;;
     i ← index0 (graph_input onnx_model);
     log INFO (OnnxInput i) ;;
     o ← index0 (graph_output onnx_model);
     log INFO (OnnxOutput o) ;;
     mret true)
    (fun e =>
     log ERROR (OnnxVerifyFailed e) ;;
     mret false).

Definition export_to_onnx (self : Converter) (model : YoloModel) : M bool :=
  try_except
    (log INFO (ExportingOnnx (onnx_path self)) ;;
     f ← call_writing (ModelExport model "onnx" (input_size self) false true 11);
     set_fs f ;;
     generated_onnx ← path_with_suffix (model_path self) ".onnx";
     present ← path_exists generated_onnx;
     ((if (present : bool) then
        call (Rename generated_onnx (onnx_path self)) ;;
        f ← get_fs;
        match f !! generated_onnx with
        | Some c => set_fs (<[onnx_path self := c]> (delete generated_onnx f))
        | None => mret tt
        end
      else mret tt) : M unit) ;;
     _ ← _verify_onnx_model self;
     log INFO ExportDone ;;
     mret true)
    (fun e =>
     log ERROR (ExportFailed e) ;;
     mret false).

Definition _representative_dataset_generator (self : Converter) : Generator :=
  fun random =>
    ([(INFO, GeneratingDataset)],
     map (fun k =>
            let data :=
              astype np_float32
                (random k [1; input_size self; input_size self; 3]) in
            [data])
         (seq 0 100)).

Definition _verify_tflite_model (self : Converter) (model_path : string) : M bool :=
  try_except
    (log INFO (VerifyingTflite model_path) ;;
     call (Interpreter model_path) ;;
     call AllocateTensors ;;
     input_details ← call GetInputDetails;
     output_details ← call GetOutputDetails;
     i0 ← index0 input_details;
     log INFO (InputShape (td_shape i0)) ;;
     log INFO (InputType (td_dtype i0)) ;;
     o0 ← index0 output_details;
     log INFO (OutputShape (td_shape o0)) ;;
     log INFO (OutputType (td_dtype o0)) ;;
     let input_shape := td_shape i0 in
     input_data ←
       ((if DType_eqb (td_dtype i0) np_uint8
         then call (RandomRandint 0 256 input_shape np_uint8)
         else a ← call (RandomRandom input_shape); mret (astype (td_dtype i0) a))
        : M NdArray);
     call (SetTensor (td_index i0) input_data) ;;
     call Invoke ;;
     output_data ← call (GetTensor (td_index o0));
     log INFO (TestOutputShape (shape output_data)) ;;
     mret true)
    (fun e =>
     log ERROR (TfliteVerifyFailed e) ;;
     mret false).

Definition default_num_runs : nat := 50.

Definition _benchmark_model (self : Converter) (model_path : string)
    (num_runs : nat) : M unit :=
  try_except
    (log INFO (Benchmarking model_path) ;;
     call (Interpreter model_path) ;;
     call AllocateTensors ;;
     input_details ← call GetInputDetails;
     i0 ← index0 input_details;
     let input_shape := td_shape i0 in
     input_data ←
       ((if DType_eqb (td_dtype i0) np_uint8
         then call (RandomRandint 0 256 input_shape np_uint8)
         else a ← call (RandomRandom input_shape); mret (astype (td_dtype i0) a))
        : M NdArray);
     for_range 5
       (call (SetTensor (td_index i0) input_data) ;;
        call Invoke) ;;
     times ← for_each (seq 0 num_runs) ([] : list spec_float) (fun times _ =>
       start_time ← call TimeTime;
       call (SetTensor (td_index i0) input_data) ;;
       call Invoke ;;
       end_time ← call TimeTime;
       mret (times ++ [py_mul (py_sub end_time start_time) (float_of_Z 1000)])%list);
     let avg_time := np_mean L times in
     let std_time := np_std L times in
     let fps := py_div (float_of_Z 1000) avg_time in
     log INFO (BenchResults (path_name L model_path)) ;;
     log INFO (BenchAverage avg_time std_time) ;;
     log INFO (BenchFps fps) ;;
     st_size ← call (Stat model_path);
     log INFO (BenchSize st_size))
    (fun e =>
     log ERROR (BenchFailed e)).

Definition convert_to_tflite (self : Converter) (quantization : string) : M bool :=
  try_except
    (log INFO (Converting quantization) ;;
     call (FromOnnx (onnx_path self)) ;;
     let converter := fresh_converter (onnx_path self) in
     let converter :=
       mkTFL (source_onnx converter) (Some [Optimize_DEFAULT])
         (supported_types converter) (supported_ops converter)
         (representative_dataset converter) (inference_input_type converter)
         (inference_output_type converter) (experimental_new_converter converter)
         (allow_custom_ops converter) in
     let '(output_path, converter) :=
       if String.eqb quantization "fp16" then
         (tflite_fp16_path self,
          mkTFL (source_onnx converter) (optimizations converter)
            (Some [tf_float16]) (Some [TFLITE_BUILTINS; SELECT_TF_OPS])
            (representative_dataset converter) (inference_input_type converter)
            (inference_output_type converter) (experimental_new_converter converter)
            (allow_custom_ops converter))
       else if String.eqb quantization "int8" then
         (tflite_int8_path self,
          mkTFL (source_onnx converter) (optimizations converter)
            (supported_types converter) (Some [TFLITE_BUILTINS_INT8; TFLITE_BUILTINS])
            (Some (_representative_dataset_generator self)) (Some tf_uint8)
            (Some tf_uint8) (experimental_new_converter converter)
            (allow_custom_ops converter))
       else
         (tflite_path self,
          mkTFL (source_onnx converter) (optimizations converter)
            (Some [tf_float32]) (Some [TFLITE_BUILTINS; SELECT_TF_OPS])
            (representative_dataset converter) (inference_input_type converter)
            (inference_output_type converter) (experimental_new_converter converter)
            (allow_custom_ops converter)) in
     let converter :=
       mkTFL (source_onnx converter) (optimizations converter)
         (supported_types converter) (supported_ops converter)
         (representative_dataset converter) (inference_input_type converter)
         (inference_output_type converter) (Some true) (Some false) in
     tflite_model ← call (Convert converter);
     call (OpenFile output_path "wb") ;;
     f ← get_fs;
     set_fs (<[output_path := Blob []]> f) ;;
     call_leaving (FileWrite output_path tflite_model)
       (fun f h =>
          <[output_path := Blob (take (written L f h output_path tflite_model)
                                   tflite_model)]> f) ;;
     f ← get_fs;
     set_fs (<[output_path := Blob tflite_model]> f) ;;
     log INFO (TfliteSaved output_path) ;;
     _ ← _verify_tflite_model self output_path;
     _benchmark_model self output_path default_num_runs ;;
     mret true)
    (fun e =>
     log ERROR (ConvertFailed e) ;;
     mret false).

Definition metadata (self : Converter) : PyVal :=
  PyDict [
    ("name", PyStr (model_name self));
    ("version", PyStr "1.0");
    ("description", PyStr "YOLOv8 model for golf ball and club head detection");
    ("input_shape", PyList [PyInt 1; PyInt (input_size self); PyInt (input_size self); PyInt 3]);
    ("input_type", PyStr "float32");
    ("input_normalization", PyStr "0-1");
    ("classes", PyList [PyStr "ball"; PyStr "club_head"]);
    ("confidence_threshold", PyFloat (float_lit 25 100));
    ("nms_threshold", PyFloat (float_lit 45 100));
    ("preprocessing", PyDict [
       ("resize", PyList [PyInt (input_size self); PyInt (input_size self)]);
       ("normalize", PyBool true);
       ("mean", PyList [PyFloat (float_of_Z 0); PyFloat (float_of_Z 0); PyFloat (float_of_Z 0)]);
       ("std", PyList [PyFloat (float_of_Z 255); PyFloat (float_of_Z 255); PyFloat (float_of_Z 255)])]);
    ("postprocessing", PyDict [
       ("output_format", PyStr "yolov8");
       ("apply_nms", PyBool true)])
  ].

Definition metadata_path (self : Converter) : string :=
  joinpath L (output_dir self) (model_name self ++ "_metadata.json").

Definition create_model_metadata (self : Converter) : M unit :=
  let metadata := metadata self in
  let metadata_path := metadata_path self in
  call (OpenFile metadata_path "w") ;;
  f ← get_fs;
  set_fs (<[metadata_path := Blob []]> f) ;;
  call_leaving (JsonDump metadata_path metadata 2)
    (fun f h => <[metadata_path := Blob (dumped L f h metadata_path metadata)]> f) ;;
  f ← get_fs;
  set_fs (<[metadata_path := Json metadata]> f) ;;
  log INFO (MetadataSaved metadata_path).

Definition variants : list (string * string) :=
  [("none", "FP32"); ("fp16", "FP16"); ("int8", "INT8")].

Definition convert_all_variants (self : Converter) : M bool :=
  let success := true in
  model ← load_yolo_model self;
  ok ← export_to_onnx self model;
  if negb ok then mret false
  else
    success ← for_each variants success (fun success '(quantization, description) =>
      log INFO (VariantHeader description) ;;
      ok ← convert_to_tflite self quantization;
      if negb ok then
        log ERROR (VariantFailed description) ;;
        mret false
      else
        log INFO (VariantDone description) ;;
        mret success);
    create_model_metadata self ;;
    mret success.

(** The parsed command line. [quantization] is one of the [choices]. *)
Record Args := mkArgs {
  args_model_path : string;
  args_output_dir : string;
  args_model_name : string;
  args_quantization : string
}.

Definition choices : list string := ["none"; "fp16"; "int8"; "all"].

Definition main (args : Args) : M Z :=
  present ← path_exists (Path L (args_model_path args));
  if negb present then
    log ERROR (FileNotFound (args_model_path args)) ;;
    mret 1
  else
    converter ← __init__ (args_model_path args) (args_output_dir args)
                  (args_model_name args);
    try_except
      (success ←
         ((if String.eqb (args_quantization args) "all" then
            convert_all_variants converter
          else
            model ← load_yolo_model converter;
            success ← export_to_onnx converter model;
            if (success : bool) then
              success ← convert_to_tflite converter (args_quantization args);
              create_model_metadata converter ;;
              mret success
            else mret success) : M bool);
       (if (success : bool) then
         log INFO Completed ;;
         log INFO (OutputDirectory (output_dir converter)) ;;
         log INFO NextSteps ;;
         log INFO Step1 ;;
         log INFO Step2 ;;
         log INFO Step3 ;;
         mret 0
       else
         log ERROR ConversionFailed ;;
         mret 1) : M Z)
      (fun e =>
       log ERROR (FailedWith e) ;;
       mret 1).

(** [sys.exit(main())]: the status of the process.  An exception that leaves
    [main] terminates the interpreter with status 1. *)
Definition exit_status (r : Res Z) : Z :=
  match r with
  | Ret code _ => code
  | Raise _ _ => 1
  end.

End Pipeline.

(** ** Observations on a run *)

Definition ev_raised (e : Event) : bool :=
  match e with Ev _ (inl _) => true | Ev _ (inr _) => false end.

Definition is_export_call (e : Event) : bool :=
  match e with Ev (ModelExport _ _ _ _ _ _) _ => true | _ => false end.


Definition is_rename_call (e : Event) : bool :=
  match e with Ev (Rename _ _) _ => true | _ => false end.

Definition is_fs_write_call (e : Event) : bool :=
  match e with
  | Ev (Mkdir _) _ | Ev (Rename _ _) _ | Ev (OpenFile _ _) _
  | Ev (FileWrite _ _) _ | Ev (JsonDump _ _ _) _
  | Ev (ModelExport _ _ _ _ _ _) _ => true
  | _ => false
  end.


(** A step announces itself in the log as its first action: the export steps
    that were attempted, and the quantization modes of the convert steps that
    were attempted, in order. *)
Definition export_attempts (l : list LogRec) : nat :=
  length (List.filter (fun r => match r.2 with ExportingOnnx _ => true | _ => false end) l).

Definition convert_attempts (l : list LogRec) : list string :=
  flat_map (fun r => match r.2 with Converting q => [q] | _ => [] end) l.

(** ** A small library double, for running the script on concrete inputs *)

Module Sample.

Fixpoint has_char (c : Ascii.ascii) (s : string) : bool :=
  match s with
  | EmptyString => false
  | String c' r => Ascii.eqb c c' || has_char c r
  end.

(** The name without its last extension. *)
Fixpoint stem (s : string) : string :=
  match s with
  | EmptyString => EmptyString
  | String c r =>
      if Ascii.eqb c "."%char && negb (has_char "."%char r) then EmptyString
      else String c (stem r)
  end.

(** The last component of a path. *)
Fixpoint basename (s : string) : string :=
  match s with
  | EmptyString => EmptyString
  | String c r => if has_char "/"%char r then basename r else
                    if Ascii.eqb c "/"%char then r else s
  end.

(** [p.name]: the current directory has an empty name. *)
Definition name (s : string) : string :=
  if String.eqb s "." then "" else basename s.

Definition fadd (x y : spec_float) : spec_float := SFadd prec64 emax64 x y.

Definition mean (l : list spec_float) : spec_float :=
  py_div (foldl fadd (S754_zero false) l) (float_of_Z (Z.of_nat (length l))).

Definition std (l : list spec_float) : spec_float :=
  let m := mean l in
  SFsqrt prec64 emax64 (mean (map (fun x => py_mul (py_sub x m) (py_sub x m)) l)).

(** The largest binary64 below 1, [1 - 2^-53]. *)
Definition below_one : spec_float := S754_finite false (2 ^ 53 - 1) (-53).
Definition one_half : spec_float := S754_finite false (2 ^ 52) (-53).

Definition constant_array (v : spec_float) (d : DType) (shp : list Z) : NdArray :=
  mkNdArray shp d (fun _ => v).

Definition exported : string := "weights/best.onnx".

(** What each call returns when it does not raise.  The export writes its
    file next to the weights when [writes] is set. *)
Definition answer (writes : bool) (v : spec_float) {A} (f : FS) (h : list Event)
    (c : Call A) : A :=
  match c in Call T return T with
  | Mkdir _ => tt
  | YOLO _ => mkYolo [(0, "ball"); (1, "club_head")]
  | ModelExport _ _ _ _ _ _ => if writes then <[exported := Blob []]> f else f
  | Rename _ _ => tt
  | OnnxLoad _ => mkOnnx ["images"] ["output0"]
  | OnnxCheckModel _ => tt
  | FromOnnx _ => tt
  | Convert _ => [Byte.x54; Byte.x46; Byte.x4c; Byte.x33]
  | OpenFile _ _ => tt
  | FileWrite _ _ => tt
  | JsonDump _ _ _ => tt
  | Interpreter _ => tt
  | AllocateTensors => tt
  | GetInputDetails => [mkDetail [1; 640; 640; 3] np_float32 0]
  | GetOutputDetails => [mkDetail [1; 6; 8400] np_float32 1]
  | RandomRandint _ _ size d => constant_array (float_of_Z 7) d size
  | RandomRandom size => constant_array v np_float64 size
  | SetTensor _ _ => tt
  | Invoke => tt
  | GetTensor _ => constant_array (S754_zero false) np_float32 [1; 6; 8400]
  | TimeTime => float_of_Z (Z.of_nat (length h))
  | Stat _ => 4
  end.

(** A library in which the calls selected by [fails] raise.  An export that
    raises has created its file, a write that raises has got two bytes
    through, a dump that raises has written the opening brace. *)
Definition lib (fails : forall A, Call A -> bool) (writes : bool) (v : spec_float) : Lib :=
  mkLib (fun s => s)
        (fun d n => d ++ "/" ++ n)
        (fun p s => stem p ++ s)
        name
        (fun _ => [])
        (fun A f h c => if fails A c then inl (LibError "failed") else inr (answer writes v f h c))
        (fun _ f _ c => if c is ModelExport _ _ _ _ _ _ then <[exported := Blob []]> f else f)
        (fun _ _ _ _ => 2%nat)
        (fun _ _ _ _ => [Byte.x7b])
        mean std
        (fun d a => mkNdArray (shape a) d (data a)).

Definition never : forall A, Call A -> bool := fun _ _ => false.

Definition load_fails : forall A, Call A -> bool :=
  fun _ c => match c with YOLO _ => true | _ => false end.

Definition export_fails : forall A, Call A -> bool :=
  fun _ c => match c with ModelExport _ _ _ _ _ _ => true | _ => false end.

Definition from_onnx_fails : forall A, Call A -> bool :=
  fun _ c => match c with FromOnnx _ => true | _ => false end.

Definition interpreter_fails : forall A, Call A -> bool :=
  fun _ c => match c with Interpreter _ => true | _ => false end.

Definition onnx_check_fails : forall A, Call A -> bool :=
  fun _ c => match c with OnnxCheckModel _ => true | _ => false end.

Definition dump_fails : forall A, Call A -> bool :=
  fun _ c => match c with JsonDump _ _ _ => true | _ => false end.

Definition good : Lib := lib never true one_half.

(** The weights do not load. *)
Definition bad_load : Lib := lib load_fails true one_half.

(** The export returns but leaves no file next to the weights. *)
Definition no_output : Lib := lib never false one_half.

(** The ONNX checker rejects the exported model. *)
Definition bad_check : Lib := lib onnx_check_fails true one_half.

(** The TFLite converter cannot be created. *)
Definition bad_from_onnx : Lib := lib from_onnx_fails true one_half.

Definition model : YoloModel := mkYolo [(0, "ball"); (1, "club_head")].

Definition write_fails : forall A, Call A -> bool :=
  fun _ c => match c with FileWrite _ _ => true | _ => false end.

(** The export raises. *)
Definition bad_export : Lib := lib export_fails true one_half.

(** Writing an opened file fails. *)
Definition bad_write : Lib := lib write_fails true one_half.

(** The metadata cannot be dumped. *)
Definition bad_dump : Lib := lib dump_fails true one_half.


(** A file system holding the trained weights, and nothing else. *)
Definition disk : FS := {[ "weights/best.pt" := Blob [] ]}.

Definition world : World := mkWorld disk [] [].
Definition empty_world : World := mkWorld ∅ [] [].

Definition args (q : string) : Args :=
  mkArgs "weights/best.pt" "models" "golf" q.

Definition converter (L : Lib) : Converter :=
  mkConverter (Path L "weights/best.pt") (Path L "models") "golf" 640
    (joinpath L (Path L "models") "golf.onnx")
    (joinpath L (Path L "models") "golf.tflite")
    (joinpath L (Path L "models") "golf_fp16.tflite")
    (joinpath L (Path L "models") "golf_int8.tflite").

End Sample.

(** ** Derived definitions used in the statements *)

(** The world after one more log record. *)
Definition logged (w : World) (r : LogRec) : World :=
  mkWorld (fs w) (calls w) (logs w ++ [r]).

(** The record [convert_all_variants] logs after a convert step. *)
Definition variant_outcome (ok : bool) (description : string) : LogRec :=
  if ok then (INFO, VariantDone description) else (ERROR, VariantFailed description).

(** The output path and the converter settings, as [convert_to_tflite]
    has them when it calls [converter.convert()]. *)
Definition configured (L : Lib) (self : Converter) (quantization : string)
    : string * TFLiteConverter :=
  let p := onnx_path self in
  if String.eqb quantization "fp16" then
    (tflite_fp16_path self,
     mkTFL p (Some [Optimize_DEFAULT]) (Some [tf_float16])
       (Some [TFLITE_BUILTINS; SELECT_TF_OPS]) None None None (Some true) (Some false))
  else if String.eqb quantization "int8" then
    (tflite_int8_path self,
     mkTFL p (Some [Optimize_DEFAULT]) None
       (Some [TFLITE_BUILTINS_INT8; TFLITE_BUILTINS])
       (Some (_representative_dataset_generator L self)) (Some tf_uint8) (Some tf_uint8)
       (Some true) (Some false))
  else
    (tflite_path self,
     mkTFL p (Some [Optimize_DEFAULT]) (Some [tf_float32])
       (Some [TFLITE_BUILTINS; SELECT_TF_OPS]) None None None (Some true) (Some false)).

(** The statements of [convert_to_tflite] up to and including the write of
    the artifact, that is, everything before the two diagnostics. *)
Definition convert_and_save (L : Lib) (self : Converter) (quantization : string)
    : M string :=
  log INFO (Converting quantization) ;;
  call L (FromOnnx (onnx_path self)) ;;
  let '(output_path, converter) := configured L self quantization in
  tflite_model ← call L (Convert converter);
  call L (OpenFile output_path "wb") ;;
  f ← get_fs;
  set_fs (<[output_path := Blob []]> f) ;;
  call_leaving L (FileWrite output_path tflite_model)
    (fun f h =>
       <[output_path := Blob (take (written L f h output_path tflite_model)
                                tflite_model)]> f) ;;
  f ← get_fs;
  set_fs (<[output_path := Blob tflite_model]> f) ;;
  log INFO (TfliteSaved output_path) ;;
  mret output_path.

(** The statements of [export_to_onnx] before the verification: the export
    itself and the relocation of its output. *)
Definition export_and_relocate (L : Lib) (self : Converter) (model : YoloModel)
    : M unit :=
  log INFO (ExportingOnnx (onnx_path self)) ;;
  f ← call_writing L (ModelExport model "onnx" (input_size self) false true 11);
  set_fs f ;;
  generated_onnx ← path_with_suffix L (model_path self) ".onnx";
  present ← path_exists generated_onnx;
  if (present : bool) then
    call L (Rename generated_onnx (onnx_path self)) ;;
    f ← get_fs;
    match f !! generated_onnx with
    | Some c => set_fs (<[onnx_path self := c]> (delete generated_onnx f))
    | None => mret tt
    end
  else mret tt.

(** The conversion [main] runs for the parsed [--quantization]: all
    variants, or load, export, one convert and the metadata. *)
Definition requested_conversion (L : Lib) (converter : Converter)
    (quantization : string) : M bool :=
  if String.eqb quantization "all" then
    convert_all_variants L converter
  else
    model ← load_yolo_model L converter;
    success ← export_to_onnx L converter model;
    if (success : bool) then
      success ← convert_to_tflite L converter quantization;
      create_model_metadata L converter ;;
      mret success
    else mret success.

(** The binary64 values of the literals [0.25] and [0.45]. *)
Definition float_0_25 : spec_float := S754_finite false 4503599627370496 (-54).
Definition float_0_45 : spec_float := S754_finite false 8106479329266893 (-54).




(** [0 <= x < 1] and [0 <= x <= 1], on the value [m * 2^e] of a float. *)
Definition in_unit (x : spec_float) : bool :=
  match x with
  | S754_zero _ => true
  | S754_finite false m e => (e <? 0) && (Zpos m <? 2 ^ (- e))
  | _ => false
  end.

Definition in_closed_unit (x : spec_float) : bool :=
  match x with
  | S754_zero _ => true
  | S754_finite false m e => (e <=? 0) && (Zpos m <=? 2 ^ (- e))
  | _ => false
  end.


(** Every library call a computation makes satisfies [P]. *)
Definition calls_all {A} (P : Event -> Prop) (m : M A) : Prop :=
  forall w, exists new,
    calls (world_of (m w)) = (calls w ++ new)%list /\ Forall P new.

(** The file system after a successful [src.rename(dst)]. *)
Definition renamed (f : FS) (src dst : string) : FS :=
  match f !! src with
  | Some c => <[dst := c]> (delete src f)
  | None => f
  end.

(** A computation that never raises. *)
Definition total {A} (m : M A) : Prop :=
  forall w, exists a w', m w = Ret a w'.

(** A computation that announces no export step and no convert step. *)
Definition quiet {A} (m : M A) : Prop :=
  forall w, exists new,
    logs (world_of (m w)) = (logs w ++ new)%list /\
    export_attempts new = 0%nat /\ convert_attempts new = [].

(** A computation that, raising or not, announces [ne] export steps and the
    convert steps [cs]. *)
Definition emits {A} (ne : nat) (cs : list string) (m : M A) : Prop :=
  forall w, exists new,
    logs (world_of (m w)) = (logs w ++ new)%list /\
    export_attempts new = ne /\ convert_attempts new = cs.

Definition quiet_msg (m : Msg) : bool :=
  match m with
  | ExportingOnnx _ | Converting _ => false
  | _ => true
  end.

(** A computation that leaves the file system as it found it, whether it
    returns or raises. *)
Definition fs_kept {A} (m : M A) : Prop :=
  forall w, fs (world_of (m w)) = fs w.

(** A call that does not write to the file system. *)
Definition reads_only (e : Event) : Prop := is_fs_write_call e = false.




(** * Theorems *)

Section Facts.

Variable L : Lib.

(** ** The monad *)

Lemma bind_unfold {A B} (m : M A) (f : A -> M B) w :
  (m ≫= f) w = match m w with Ret a w' => f a w' | Raise e w' => Raise e w' end.
Proof. reflexivity. Qed.

Lemma try_except_total {A} (body : M A) (handler : Exn -> M A) :
  (forall e, total (handler e)) -> total (try_except body handler).
Proof.
  intros Hh w. unfold try_except.
  destruct (body w) as [a w'|e w']; [eauto | apply Hh].
Qed.

Lemma bind_total {A B} (m : M A) (f : A -> M B) :
  total m -> (forall a, total (f a)) -> total (m ≫= f).
Proof.
  intros Hm Hf w. rewrite bind_unfold.
  destruct (Hm w) as (a & w' & ->). apply Hf.
Qed.

Lemma log_total l m : total (log l m).
Proof. intros w. unfold log. eauto. Qed.

Lemma ret_total {A} (a : A) : total (mret a : M A).
Proof. intros w. eexists _, _. reflexivity. Qed.

Lemma handler_total {A} l (f : Exn -> Msg) (a : A) e :
  total (log l (f e) ;; mret a).
Proof. apply bind_total; [apply log_total | intros; apply ret_total]. Qed.

Lemma verify_onnx_total self : total (_verify_onnx_model L self).
Proof. apply try_except_total. intros e. apply handler_total. Qed.

Lemma verify_tflite_total self p : total (_verify_tflite_model L self p).
Proof. apply try_except_total. intros e. apply handler_total. Qed.

Lemma benchmark_total self p n : total (_benchmark_model L self p n).
Proof. apply try_except_total. intros e. apply log_total. Qed.

Lemma export_total self model : total (export_to_onnx L self model).
Proof. apply try_except_total. intros e. apply handler_total. Qed.

Lemma convert_total self q : total (convert_to_tflite L self q).
Proof. apply try_except_total. intros e. apply handler_total. Qed.

(** ** The convert step *)

Ltac unfold_monad :=
  unfold try_except, call, call_writing, call_leaving, log, get_fs, set_fs, path_exists,
    raise, index0, mbind, M_bind, mret, M_ret.

Ltac simpl_world :=
  cbn beta iota delta [fs calls logs world_of returns
    source_onnx optimizations supported_types supported_ops
    representative_dataset inference_input_type inference_output_type
    experimental_new_converter allow_custom_ops].

(** Case analysis on the outcome of the next library call. *)
Ltac next_call :=
  match goal with
  | |- context [oracle ?L ?A ?f ?h ?c] =>
      let E := fresh "Hcall" in
      destruct (oracle L A f h c) eqn:E; simpl_world
  end.

Lemma convert_split self q w :
  convert_to_tflite L self q w =
  try_except
    (output_path ← convert_and_save L self q;
     _ ← _verify_tflite_model L self output_path;
     _benchmark_model L self output_path default_num_runs ;;
     mret true)
    (fun e => log ERROR (ConvertFailed e) ;; mret false) w.
Proof.
  unfold convert_to_tflite, convert_and_save, configured, fresh_converter.
  destruct (String.eqb q "fp16"); [|destruct (String.eqb q "int8")];
    unfold_monad; simpl_world; repeat next_call; try reflexivity.
Qed.

Lemma convert_after_save self q w p w1 :
  convert_and_save L self q w = Ret p w1 ->
  exists w', convert_to_tflite L self q w = Ret true w'.
Proof.
  intros Hs. rewrite convert_split. unfold try_except.
  rewrite bind_unfold, Hs, bind_unfold.
  destruct (verify_tflite_total self p w1) as (b & w2 & ->).
  rewrite bind_unfold.
  destruct (benchmark_total self p default_num_runs w2) as ([] & w3 & ->).
  eauto.
Qed.

Lemma convert_save_raises self q w e w1 :
  convert_and_save L self q w = Raise e w1 ->
  convert_to_tflite L self q w = Ret false (logged w1 (ERROR, ConvertFailed e)).
Proof.
  intros Hs. rewrite convert_split. unfold try_except.
  rewrite bind_unfold, Hs. reflexivity.
Qed.

(** ** The validation step *)

Lemma verify_tflite_false_iff_caught self p w b w' :
  _verify_tflite_model L self p w = Ret b w' ->
  b = false <-> exists e, last (logs w') = Some (ERROR, TfliteVerifyFailed e).
Proof.
  unfold _verify_tflite_model. unfold_monad. simpl_world.
  repeat first
    [ next_call
    | match goal with
      | |- context [match ?l with [] => _ | _ :: _ => _ end] => destruct l; simpl_world
      | |- context [if ?c then _ else _] => destruct c; simpl_world
      end ];
    intros [= <- <-]; simpl_world; rewrite last_snoc;
    (split; [intros; try discriminate; eauto | intros [e' He]; congruence]).
Qed.

Lemma verify_tflite_corrupt self p w e :
  oracle L unit (fs w) (calls w) (Interpreter p) = inl e ->
  exists w', _verify_tflite_model L self p w = Ret false w'.
Proof.
  intros He. unfold _verify_tflite_model. unfold_monad. simpl_world.
  rewrite He. eauto.
Qed.

(** ** Run all variants *)

(** C1. In [convert_all_variants], once the model is loaded and exported,
    the three convert steps run and each returns a boolean, and the
    aggregate result returned after the metadata is written is the logical
    AND of those three booleans.  The validation step never raises, returns
    [False] exactly when it caught a failure (for instance a corrupt artifact
    that the interpreter refuses), and the benchmark step never raises.
    Neither changes the result of its convert step: that result is [True]
    as soon as the artifact is saved, and [False] only when the conversion or
    the write itself raised. *)
Theorem C1_aggregate_is_and_of_convert_steps (self : Converter) :
  (forall p w, exists b w', _verify_tflite_model L self p w = Ret b w') /\
  (forall p w b w', _verify_tflite_model L self p w = Ret b w' ->
     b = false <-> exists e, last (logs w') = Some (ERROR, TfliteVerifyFailed e)) /\
  (forall p w e, oracle L unit (fs w) (calls w) (Interpreter p) = inl e ->
     exists w', _verify_tflite_model L self p w = Ret false w') /\
  (forall p n w, exists w', _benchmark_model L self p n w = Ret tt w') /\
  (forall q w p w1, convert_and_save L self q w = Ret p w1 ->
     exists w', convert_to_tflite L self q w = Ret true w') /\
  (forall q w e w1, convert_and_save L self q w = Raise e w1 ->
     exists w', convert_to_tflite L self q w = Ret false w') /\
  (forall w model w1 w2,
     load_yolo_model L self w = Ret model w1 ->
     export_to_onnx L self model w1 = Ret true w2 ->
     exists r1 w3 r2 w4 r3 w5,
       convert_to_tflite L self "none"
         (logged w2 (INFO, VariantHeader "FP32")) = Ret r1 w3 /\
       convert_to_tflite L self "fp16"
         (logged (logged w3 (variant_outcome r1 "FP32")) (INFO, VariantHeader "FP16"))
         = Ret r2 w4 /\
       convert_to_tflite L self "int8"
         (logged (logged w4 (variant_outcome r2 "FP16")) (INFO, VariantHeader "INT8"))
         = Ret r3 w5 /\
       convert_all_variants L self w =
         (create_model_metadata L self ;; mret (r1 && r2 && r3))
           (logged w5 (variant_outcome r3 "INT8"))).
Proof.
  split; [apply verify_tflite_total|].
  split; [apply verify_tflite_false_iff_caught|].
  split; [apply verify_tflite_corrupt|].
  split.
  { intros p n w. destruct (benchmark_total self p n w) as ([] & w' & ->). eauto. }
  split; [apply convert_after_save|].
  split.
  { intros q w e w1 Hs. rewrite (convert_save_raises _ _ _ _ _ Hs). eauto. }
  intros w model w1 w2 Hload Hexport.
  destruct (convert_total self "none" (logged w2 (INFO, VariantHeader "FP32")))
    as (r1 & w3 & E1).
  destruct (convert_total self "fp16"
              (logged (logged w3 (variant_outcome r1 "FP32")) (INFO, VariantHeader "FP16")))
    as (r2 & w4 & E2).
  destruct (convert_total self "int8"
              (logged (logged w4 (variant_outcome r2 "FP16")) (INFO, VariantHeader "INT8")))
    as (r3 & w5 & E3).
  exists r1, w3, r2, w4, r3, w5.
  split; [assumption|]. split; [assumption|]. split; [assumption|].
  unfold convert_all_variants.
  rewrite bind_unfold, Hload, bind_unfold, Hexport.
  cbn [negb variants for_each].
  destruct r1, r2, r3;
    unfold logged, variant_outcome in *;
    unfold mbind, M_bind, mret, M_ret, log;
    cbn beta iota delta [fs calls logs negb andb] in *;
    rewrite E1; cbn beta iota delta [fs calls logs negb andb];
    rewrite E2; cbn beta iota delta [fs calls logs negb andb];
    rewrite E3; reflexivity.
Qed.

(** C2. When the source path does not exist, [main] returns 1 having only
    logged the error: the file system is untouched and no library call was
    made, so nothing was written and no export was invoked. *)
Theorem C2_missing_source_exits_before_any_effect (args : Args) (w : World) :
  fs w !! Path L (args_model_path args) = None ->
  exists w',
    main L args w = Ret 1 w' /\
    exit_status (main L args w) = 1 /\
    fs w' = fs w /\
    calls w' = calls w /\
    logs w' = (logs w ++ [(ERROR, FileNotFound (args_model_path args))])%list.
Proof.
  intros Hmissing.
  exists (logged w (ERROR, FileNotFound (args_model_path args))).
  assert (Hmain : main L args w =
                  Ret 1 (logged w (ERROR, FileNotFound (args_model_path args)))).
  { unfold main. unfold_monad. rewrite Hmissing.
    rewrite bool_decide_eq_false_2 by (intros [x Hx]; discriminate).
    reflexivity. }
  rewrite Hmain. repeat split.
Qed.

(** ** Announced steps *)

Lemma export_attempts_app l1 l2 :
  export_attempts (l1 ++ l2) = (export_attempts l1 + export_attempts l2)%nat.
Proof. unfold export_attempts. rewrite List.filter_app, length_app. reflexivity. Qed.

Lemma convert_attempts_app l1 l2 :
  convert_attempts (l1 ++ l2) = (convert_attempts l1 ++ convert_attempts l2)%list.
Proof. unfold convert_attempts. apply flat_map_app. Qed.

Lemma quiet_emits {A} (m : M A) : quiet m <-> emits 0 [] m.
Proof. reflexivity. Qed.

Lemma emits_nothing {A} (m : M A) :
  (forall w, logs (world_of (m w)) = logs w) -> quiet m.
Proof. intros H w. exists []. rewrite H, app_nil_r. auto. Qed.

Lemma quiet_ret {A} (a : A) : quiet (mret a : M A).
Proof. apply emits_nothing. reflexivity. Qed.

Lemma quiet_raise {A} e : quiet (raise e : M A).
Proof. apply emits_nothing. reflexivity. Qed.

Lemma quiet_get_fs : quiet get_fs.
Proof. apply emits_nothing. reflexivity. Qed.

Lemma quiet_set_fs f : quiet (set_fs f).
Proof. apply emits_nothing. reflexivity. Qed.

Lemma quiet_path_exists p : quiet (path_exists p).
Proof. apply emits_nothing. reflexivity. Qed.

Lemma quiet_index0 {A} (l : list A) : quiet (index0 l).
Proof. destruct l; [apply quiet_raise | apply quiet_ret]. Qed.

Lemma quiet_call {A} (c : Call A) : quiet (call L c).
Proof.
  apply emits_nothing. intros w. unfold call.
  destruct (oracle L A (fs w) (calls w) c); reflexivity.
Qed.

Lemma quiet_call_leaving {A} (c : Call A) left : quiet (call_leaving L c left).
Proof.
  apply emits_nothing. intros w. unfold call_leaving.
  destruct (oracle L A (fs w) (calls w) c); reflexivity.
Qed.

Lemma quiet_call_writing {A} (c : Call A) : quiet (call_writing L c).
Proof. apply quiet_call_leaving. Qed.

Lemma quiet_path_with_suffix p s : quiet (path_with_suffix L p s).
Proof.
  unfold path_with_suffix. destruct (String.eqb _ _); [apply quiet_raise | apply quiet_ret].
Qed.

Lemma emits_log l m :
  emits (if m is ExportingOnnx _ then 1 else 0)
        (if m is Converting q then [q] else []) (log l m).
Proof. intros w. exists [(l, m)]. destruct m; repeat split. Qed.

Lemma quiet_log l m : quiet_msg m = true -> quiet (log l m).
Proof.
  intros Hm w. exists [(l, m)]. split; [reflexivity|].
  destruct m; try discriminate; split; reflexivity.
Qed.

Lemma emits_bind_total {A B} n1 c1 n2 c2 (m : M A) (f : A -> M B) :
  total m -> emits n1 c1 m -> (forall a, emits n2 c2 (f a)) ->
  emits (n1 + n2) (c1 ++ c2) (m ≫= f).
Proof.
  intros Ht Hm Hf w. rewrite bind_unfold.
  destruct (Hm w) as (new1 & Hl1 & Hn1 & Hc1).
  destruct (Ht w) as (a & w' & Hw). rewrite Hw in *. cbn [world_of] in Hl1.
  destruct (Hf a w') as (new2 & Hl2 & Hn2 & Hc2).
  exists (new1 ++ new2)%list.
  rewrite Hl2, Hl1, app_assoc, export_attempts_app, convert_attempts_app.
  subst. auto.
Qed.

Lemma emits_bind_quiet {A B} n c (m : M A) (f : A -> M B) :
  emits n c m -> (forall a, quiet (f a)) -> emits n c (m ≫= f).
Proof.
  intros Hm Hf w. rewrite bind_unfold.
  destruct (Hm w) as (new1 & Hl1 & Hn1 & Hc1).
  destruct (m w) as [a w'|e w']; cbn [world_of] in *.
  - destruct (Hf a w') as (new2 & Hl2 & Hn2 & Hc2).
    exists (new1 ++ new2)%list.
    rewrite Hl2, Hl1, app_assoc, export_attempts_app, convert_attempts_app.
    rewrite Hn1, Hn2, Hc1, Hc2, app_nil_r. auto with arith.
  - exists new1. auto.
Qed.

Lemma quiet_bind {A B} (m : M A) (f : A -> M B) :
  quiet m -> (forall a, quiet (f a)) -> quiet (m ≫= f).
Proof. apply emits_bind_quiet. Qed.

Lemma emits_try_except {A} n c (body : M A) (handler : Exn -> M A) :
  emits n c body -> (forall e, quiet (handler e)) ->
  emits n c (try_except body handler).
Proof.
  intros Hb Hh w. unfold try_except.
  destruct (Hb w) as (new1 & Hl1 & Hn1 & Hc1).
  destruct (body w) as [a w'|e w']; cbn [world_of] in *.
  - exists new1. auto.
  - destruct (Hh e w') as (new2 & Hl2 & Hn2 & Hc2).
    exists (new1 ++ new2)%list.
    rewrite Hl2, Hl1, app_assoc, export_attempts_app, convert_attempts_app.
    rewrite Hn1, Hn2, Hc1, Hc2, app_nil_r. auto with arith.
Qed.

Lemma quiet_try_except {A} (body : M A) (handler : Exn -> M A) :
  quiet body -> (forall e, quiet (handler e)) -> quiet (try_except body handler).
Proof. apply emits_try_except. Qed.

Lemma quiet_for_range n (body : M unit) : quiet body -> quiet (for_range n body).
Proof.
  intros Hb. induction n as [|n IH]; cbn [for_range].
  - apply quiet_ret.
  - apply quiet_bind; auto.
Qed.

Lemma quiet_for_each {A B} (xs : list B) (acc : A) (body : A -> B -> M A) :
  (forall a x, quiet (body a x)) -> quiet (for_each xs acc body).
Proof.
  intros Hb. revert acc. induction xs as [|x xs IH]; intros acc; cbn [for_each].
  - apply quiet_ret.
  - apply quiet_bind; auto.
Qed.

Lemma quiet_if {A} (b : bool) (m1 m2 : M A) :
  quiet m1 -> quiet m2 -> quiet (if b then m1 else m2).
Proof. destruct b; auto. Qed.

Create HintDb quiet.
#[local] Hint Resolve quiet_ret quiet_raise quiet_get_fs quiet_set_fs quiet_path_exists
  quiet_index0 quiet_call quiet_call_leaving quiet_call_writing quiet_path_with_suffix
  quiet_for_range quiet_for_each quiet_if : quiet.
#[local] Hint Extern 1 (quiet (log _ _)) => (apply quiet_log; reflexivity) : quiet.
#[local] Hint Extern 2 (quiet (_ ≫= _)) => (apply quiet_bind; [|intros]) : quiet.
#[local] Hint Extern 2 (quiet (try_except _ _)) =>
  (apply quiet_try_except; [|intros]) : quiet.
#[local] Hint Extern 3 (quiet (match ?x with _ => _ end)) => destruct x : quiet.

Ltac quiet_tac := auto 40 with quiet.

Lemma quiet_load self : quiet (load_yolo_model L self).
Proof. unfold load_yolo_model. quiet_tac. Qed.

Lemma quiet_verify_onnx self : quiet (_verify_onnx_model L self).
Proof. unfold _verify_onnx_model. quiet_tac. Qed.

Lemma quiet_verify_tflite self p : quiet (_verify_tflite_model L self p).
Proof. unfold _verify_tflite_model. quiet_tac. Qed.

Lemma quiet_benchmark self p n : quiet (_benchmark_model L self p n).
Proof. unfold _benchmark_model. quiet_tac. Qed.

Lemma quiet_metadata self : quiet (create_model_metadata L self).
Proof. unfold create_model_metadata. quiet_tac. Qed.

#[local] Hint Resolve quiet_verify_onnx quiet_verify_tflite quiet_benchmark
  quiet_metadata quiet_load : quiet.

Ltac as_quiet :=
  match goal with |- emits 0 [] ?m => change (quiet m) end.

Lemma emits_export self model : emits 1 [] (export_to_onnx L self model).
Proof.
  unfold export_to_onnx. apply emits_try_except; [|intros; quiet_tac].
  apply (emits_bind_total 1 [] 0 []); [apply log_total | apply emits_log |].
  intros _. as_quiet. quiet_tac.
Qed.

Lemma emits_convert self q : emits 0 [q] (convert_to_tflite L self q).
Proof.
  unfold convert_to_tflite. apply emits_try_except; [|intros; quiet_tac].
  apply (emits_bind_total 0 [q] 0 []); [apply log_total | apply emits_log |].
  intros _. as_quiet.
  destruct (String.eqb q "fp16"); [|destruct (String.eqb q "int8")]; quiet_tac.
Qed.

(** One turn of the loop of [convert_all_variants]. *)
Lemma variant_turn self (success : bool) q d :
  let turn :=
    log INFO (VariantHeader d) ;;
    ok ← convert_to_tflite L self q;
    if negb ok then log ERROR (VariantFailed d) ;; mret false
    else log INFO (VariantDone d) ;; mret success in
  total turn /\ emits 0 [q] turn.
Proof.
  split.
  - apply bind_total; [apply log_total|]. intros _.
    apply bind_total; [apply convert_total|]. intros [];
      (apply bind_total; [apply log_total | intros; apply ret_total]).
  - apply (emits_bind_total 0 [] 0 [q]);
      [apply log_total | apply quiet_log; reflexivity |].
    intros _. apply (emits_bind_quiet 0 [q]); [apply emits_convert|].
    intros []; cbn [negb]; quiet_tac.
Qed.

Lemma emits_variants self :
  emits 0 ["none"; "fp16"; "int8"]
    (for_each variants true (fun success '(quantization, description) =>
       log INFO (VariantHeader description) ;;
       ok ← convert_to_tflite L self quantization;
       if negb ok then
         log ERROR (VariantFailed description) ;;
         mret false
       else
         log INFO (VariantDone description) ;;
         mret success)).
Proof.
  cbn [variants for_each].
  apply (emits_bind_total 0 ["none"] 0 ["fp16"; "int8"]);
    [apply (variant_turn self true "none" "FP32")
    |apply (variant_turn self true "none" "FP32") |].
  intros s1.
  apply (emits_bind_total 0 ["fp16"] 0 ["int8"]);
    [apply (variant_turn self s1 "fp16" "FP16")
    |apply (variant_turn self s1 "fp16" "FP16") |].
  intros s2.
  apply (emits_bind_quiet 0 ["int8"]);
    [apply (variant_turn self s2 "int8" "INT8") | intros; apply quiet_ret].
Qed.

(** C3, as the code has it.  Once the source model is loaded,
    [convert_all_variants] attempts the export step exactly once; when the
    export fails it returns [False] without attempting a convert step; when
    the export succeeds it attempts the convert step exactly three times, for
    ["none"], ["fp16"], ["int8"] in this order.  When the source model does
    not load, the exception of the load leaves [convert_all_variants]: the
    failed load is the only call made, and neither the export step nor a
    convert step is attempted. *)
Theorem C3_export_once_then_three_converts (self : Converter) (w : World) :
  (forall model w1,
     load_yolo_model L self w = Ret model w1 ->
     exists new ok w2,
       logs (world_of (convert_all_variants L self w)) = (logs w ++ new)%list /\
       export_to_onnx L self model w1 = Ret ok w2 /\
       export_attempts new = 1%nat /\
       if ok then convert_attempts new = ["none"; "fp16"; "int8"]
       else convert_attempts new = [] /\
            convert_all_variants L self w = Ret false w2) /\
  (forall e w1,
     load_yolo_model L self w = Raise e w1 ->
     convert_all_variants L self w = Raise e w1 /\
     oracle L YoloModel (fs w) (calls w) (YOLO (model_path self)) = inl e /\
     fs w1 = fs w /\
     calls w1 = (calls w ++ [Ev (YOLO (model_path self)) (inl e)])%list /\
     exists new,
       logs w1 = (logs w ++ new)%list /\
       export_attempts new = 0%nat /\ convert_attempts new = []).
Proof.
  split.
  - intros model w1 Hload.
    destruct (quiet_load self w) as (n0 & Hl0 & Hn0 & Hc0).
    rewrite Hload in Hl0. cbn [world_of] in Hl0.
    destruct (export_total self model w1) as (ok & w2 & Hexp).
    destruct (emits_export self model w1) as (n1 & Hl1 & Hn1 & Hc1).
    rewrite Hexp in Hl1. cbn [world_of] in Hl1.
    unfold convert_all_variants.
    rewrite bind_unfold, Hload, bind_unfold, Hexp.
    destruct ok; cbn [negb].
    + match goal with
      | |- context [(?loop ≫= ?k) w2] =>
          destruct (emits_bind_quiet 0 ["none"; "fp16"; "int8"] loop k) with (w := w2)
            as (n2 & Hl2 & Hn2 & Hc2)
      end.
      { apply emits_variants. }
      { intros a. apply quiet_bind; [apply quiet_metadata | intros; apply quiet_ret]. }
      exists (n0 ++ n1 ++ n2)%list, true, w2.
      rewrite Hl2, Hl1, Hl0, !export_attempts_app, !convert_attempts_app.
      rewrite Hn0, Hn1, Hn2, Hc0, Hc1, Hc2, <- !app_assoc. auto.
    + exists (n0 ++ n1)%list, false, w2. unfold mret, M_ret. cbn [world_of].
      rewrite Hl1, Hl0, !export_attempts_app, !convert_attempts_app.
      rewrite Hn0, Hn1, Hc0, Hc1, <- !app_assoc. auto.
  - intros e w1 Hload.
    split; [unfold convert_all_variants; rewrite bind_unfold, Hload; reflexivity|].
    revert Hload. unfold load_yolo_model. unfold_monad. simpl_world.
    next_call; [|discriminate].
    intros [= -> <-]. simpl_world.
    split; [reflexivity|]. split; [reflexivity|]. split; [reflexivity|].
    exists [(INFO, LoadingModel (model_path self)); (ERROR, LoadFailed e)].
    rewrite <- app_assoc. repeat split.
Qed.

(** ** The export step *)

Lemma export_split self model w :
  export_to_onnx L self model w =
  try_except
    (export_and_relocate L self model ;;
     _ ← _verify_onnx_model L self;
     log INFO ExportDone ;;
     mret true)
    (fun e => log ERROR (ExportFailed e) ;; mret false) w.
Proof.
  unfold export_to_onnx, export_and_relocate, path_with_suffix. unfold_monad. simpl_world.
  repeat first
    [ next_call
    | match goal with
      | |- context [String.eqb ?a ?b] => destruct (String.eqb a b); simpl_world
      | |- context [bool_decide ?P] => destruct (bool_decide P); simpl_world
      | |- context [match ?f !! ?k with _ => _ end] => destruct (f !! k); simpl_world
      end ];
    reflexivity.
Qed.

(** C9. The verification of the interchange artifact never raises: it
    returns a boolean.  [export_to_onnx] discards that boolean: whenever the
    export and the relocation went through, it returns [True], whether the
    verification returned [True] or [False]. *)
Theorem C9_export_succeeds_whatever_verification_says (self : Converter)
    (model : YoloModel) :
  (forall w, exists b w', _verify_onnx_model L self w = Ret b w') /\
  (forall w w1 b w2,
     export_and_relocate L self model w = Ret tt w1 ->
     _verify_onnx_model L self w1 = Ret b w2 ->
     export_to_onnx L self model w = Ret true (logged w2 (INFO, ExportDone))).
Proof.
  split; [apply verify_onnx_total|].
  intros w w1 b w2 Hpre Hver.
  rewrite export_split. unfold try_except at 1.
  rewrite bind_unfold, Hpre, bind_unfold, Hver. reflexivity.
Qed.

(** C7, as the code has it.  When [export_to_onnx] returns [True], the
    library export returned, and the file it left at the source model path
    with the suffix replaced by [.onnx], if there is one, was renamed to the
    configured interchange path before the verification started.  If there
    is no such file the step renames nothing and still returns [True]. *)
Theorem C7_export_relocates_existing_output (self : Converter) (model : YoloModel)
    (w w' : World) :
  export_to_onnx L self model w = Ret true w' ->
  let generated_onnx := with_suffix L (model_path self) ".onnx" in
  let export := ModelExport model "onnx" (input_size self) false true 11 in
  exists f rest,
    oracle L FS (fs w) (calls w) export = inr f /\
    fs w' = renamed f generated_onnx (onnx_path self) /\
    calls w' =
      (calls w ++ Ev export (inr f) ::
         (if f !! generated_onnx is Some _
          then [Ev (Rename generated_onnx (onnx_path self)) (inr tt)] else []) ++
         rest)%list /\
    forallb (fun e => negb (is_rename_call e)) rest = true.
Proof.
  cbv zeta.
  unfold export_to_onnx, _verify_onnx_model, path_with_suffix, renamed.
  unfold_monad. simpl_world.
  destruct (oracle L FS _ _ _) as [e|f] eqn:Hexp; simpl_world; [discriminate|].
  destruct (String.eqb (path_name L (model_path self)) ""); simpl_world; [discriminate|].
  destruct (f !! with_suffix L (model_path self) ".onnx") as [c|] eqn:Hgen.
  - rewrite bool_decide_eq_true_2 by eauto.
    destruct (oracle L unit _ _ (Rename _ _)) as [e|[]]; simpl_world;
      [discriminate|].
    rewrite Hgen. simpl_world.
    repeat first
      [ next_call
      | match goal with
        | |- context [match ?l with [] => _ | _ :: _ => _ end] =>
            destruct l; simpl_world
        end ];
      intros [= <-]; simpl_world; eexists f, _; rewrite ?Hgen;
      (split; [reflexivity|]); (split; [reflexivity|]);
      rewrite <- ?app_assoc; cbn [app]; (split; [reflexivity|]); reflexivity.
  - rewrite bool_decide_eq_false_2 by (intros [x Hx]; discriminate).
    repeat first
      [ next_call
      | match goal with
        | |- context [match ?l with [] => _ | _ :: _ => _ end] =>
            destruct l; simpl_world
        end ];
      intros [= <-]; simpl_world; eexists f, _; rewrite ?Hgen;
      (split; [reflexivity|]); (split; [reflexivity|]);
      rewrite <- ?app_assoc; cbn [app]; (split; [reflexivity|]); reflexivity.
Qed.

(** ** The metadata *)

Lemma init_fields mp od name w self w' :
  __init__ L mp od name w = Ret self w' ->
  self = mkConverter (Path L mp) (Path L od) name 640
           (joinpath L (Path L od) (name ++ ".onnx"))
           (joinpath L (Path L od) (name ++ ".tflite"))
           (joinpath L (Path L od) (name ++ "_fp16.tflite"))
           (joinpath L (Path L od) (name ++ "_int8.tflite")).
Proof.
  unfold __init__. unfold_monad. simpl_world.
  next_call; [discriminate|]. intros [= <- _]. reflexivity.
Qed.

Lemma metadata_written self w w' :
  create_model_metadata L self w = Ret tt w' ->
  fs w' = <[metadata_path L self := Json (metadata self)]> (fs w) /\
  logs w' = (logs w ++ [(INFO, MetadataSaved (metadata_path L self))])%list.
Proof.
  unfold create_model_metadata. unfold_monad. simpl_world.
  repeat next_call; try discriminate.
  intros [= <-]. simpl_world. rewrite insert_insert_eq. auto.
Qed.

(** C6. The metadata file is written at [<output_dir>/<name>_metadata.json]
    and, read back, has [classes == ["ball", "club_head"]],
    [confidence_threshold == 0.25], [nms_threshold == 0.45] and
    [input_shape == [1, 640, 640, 3]]. *)
Theorem C6_metadata_contents (mp od name : string) (w0 w1 w w' : World)
    (self : Converter) :
  __init__ L mp od name w0 = Ret self w1 ->
  create_model_metadata L self w = Ret tt w' ->
  exists file doc,
    fs w' !! joinpath L (Path L od) (name ++ "_metadata.json") = Some file /\
    json_load file = Some doc /\
    py_get doc "classes" = Some (PyList [PyStr "ball"; PyStr "club_head"]) /\
    py_get doc "confidence_threshold" = Some (PyFloat float_0_25) /\
    py_get doc "nms_threshold" = Some (PyFloat float_0_45) /\
    py_get doc "input_shape" =
      Some (PyList [PyInt 1; PyInt 640; PyInt 640; PyInt 3]).
Proof.
  intros Hinit Hmeta.
  apply init_fields in Hinit. apply metadata_written in Hmeta as [Hfs _].
  exists (Json (metadata self)), (metadata self).
  rewrite Hfs. subst self. unfold metadata_path. cbn [output_dir model_name].
  rewrite lookup_insert_eq. repeat split.
Qed.

(** ** The command line *)

Lemma main_missing args w :
  fs w !! Path L (args_model_path args) = None ->
  main L args w = Ret 1 (logged w (ERROR, FileNotFound (args_model_path args))).
Proof.
  intros Hmissing. unfold main. unfold_monad. rewrite Hmissing.
  rewrite bool_decide_eq_false_2 by (intros [x Hx]; discriminate).
  reflexivity.
Qed.

Lemma main_present args w :
  is_Some (fs w !! Path L (args_model_path args)) ->
  main L args w =
  (converter ← __init__ L (args_model_path args) (args_output_dir args)
                 (args_model_name args);
   try_except
     (success ← requested_conversion L converter (args_quantization args);
      if (success : bool) then
        log INFO Completed ;;
        log INFO (OutputDirectory (output_dir converter)) ;;
        log INFO NextSteps ;;
        log INFO Step1 ;;
        log INFO Step2 ;;
        log INFO Step3 ;;
        mret 0
      else
        log ERROR ConversionFailed ;;
        mret 1)
     (fun e =>
      log ERROR (FailedWith e) ;;
      mret 1)) w.
Proof.
  intros Hpresent. unfold main. rewrite bind_unfold. unfold path_exists.
  rewrite bool_decide_eq_true_2 by assumption. reflexivity.
Qed.

Lemma main_init_raises args w e w1 :
  is_Some (fs w !! Path L (args_model_path args)) ->
  __init__ L (args_model_path args) (args_output_dir args) (args_model_name args) w
    = Raise e w1 ->
  main L args w = Raise e w1.
Proof.
  intros Hp Hinit. rewrite main_present by assumption.
  rewrite bind_unfold, Hinit. reflexivity.
Qed.

Lemma main_conversion args w conv w1 :
  is_Some (fs w !! Path L (args_model_path args)) ->
  __init__ L (args_model_path args) (args_output_dir args) (args_model_name args) w
    = Ret conv w1 ->
  match requested_conversion L conv (args_quantization args) w1 with
  | Ret true w2 => exists w', main L args w = Ret 0 w' /\ fs w' = fs w2
  | Ret false w2 => main L args w = Ret 1 (logged w2 (ERROR, ConversionFailed))
  | Raise e w2 => main L args w = Ret 1 (logged w2 (ERROR, FailedWith e))
  end.
Proof.
  intros Hp Hinit. rewrite main_present by assumption.
  rewrite bind_unfold, Hinit. unfold try_except. rewrite bind_unfold.
  destruct (requested_conversion L conv (args_quantization args) w1)
    as [[] w2|e w2]; try reflexivity.
  eexists. split; reflexivity.
Qed.

Ltac settle :=
  repeat match goal with
  | H : exists _, _ |- _ => destruct H
  | H : _ /\ _ |- _ => destruct H
  | H : is_Some _ |- _ => destruct H as [? ?]
  end;
  try discriminate; try congruence.

(** C8. The exit status is 0 or 1.  It is 0 exactly when the source file
    exists, the converter is constructed and the requested conversion returns
    [True].  It is 1 when the source file is missing, when an exception leaves
    [main] (raised while the converter is constructed), when an exception of
    the conversion is caught at the top of [main], and when the conversion
    returns [False]. *)
Theorem C8_exit_status (args : Args) (w : World) :
  let r := main L args w in
  let source := Path L (args_model_path args) in
  let init := __init__ L (args_model_path args) (args_output_dir args)
                (args_model_name args) in
  let run conv := requested_conversion L conv (args_quantization args) in
  (exit_status r = 0 \/ exit_status r = 1) /\
  (exit_status r = 0 <->
     exists conv w1 w2,
       is_Some (fs w !! source) /\ init w = Ret conv w1 /\ run conv w1 = Ret true w2) /\
  (fs w !! source = None -> exit_status r = 1) /\
  (forall e w1,
     is_Some (fs w !! source) -> init w = Raise e w1 ->
     r = Raise e w1 /\ exit_status r = 1) /\
  (forall conv w1 e w2,
     is_Some (fs w !! source) -> init w = Ret conv w1 -> run conv w1 = Raise e w2 ->
     exit_status r = 1) /\
  (forall conv w1 w2,
     is_Some (fs w !! source) -> init w = Ret conv w1 -> run conv w1 = Ret false w2 ->
     exit_status r = 1).
Proof.
  cbv zeta.
  assert (Hcases :
    (fs w !! Path L (args_model_path args) = None /\ exit_status (main L args w) = 1) \/
    (is_Some (fs w !! Path L (args_model_path args)) /\
     ((exists e w1, __init__ L (args_model_path args) (args_output_dir args)
                      (args_model_name args) w = Raise e w1 /\
                    main L args w = Raise e w1) \/
      (exists conv w1,
         __init__ L (args_model_path args) (args_output_dir args)
           (args_model_name args) w = Ret conv w1 /\
         match requested_conversion L conv (args_quantization args) w1 with
         | Ret true _ => exit_status (main L args w) = 0
         | _ => exit_status (main L args w) = 1
         end)))).
  { destruct (fs w !! Path L (args_model_path args)) as [c|] eqn:Hsrc.
    - right. split; [eauto|].
      assert (Hp : is_Some (fs w !! Path L (args_model_path args)))
        by (rewrite Hsrc; eauto).
      destruct (__init__ L (args_model_path args) (args_output_dir args)
                  (args_model_name args) w) as [conv w1|e w1] eqn:Hinit.
      + right. exists conv, w1. split; [reflexivity|].
        pose proof (main_conversion args w conv w1 Hp Hinit) as Hm.
        destruct (requested_conversion L conv (args_quantization args) w1)
          as [[] w2|e w2].
        * destruct Hm as (w' & -> & _). reflexivity.
        * rewrite Hm. reflexivity.
        * rewrite Hm. reflexivity.
      + left. exists e, w1. split; [reflexivity|].
        apply main_init_raises; assumption.
    - left. split; [reflexivity|]. rewrite main_missing by assumption. reflexivity. }
  destruct Hcases as [[Hnone H1]|[Hp [(e & w1 & Hinit & Hm)|(conv & w1 & Hinit & Hm)]]].
  - rewrite H1, Hnone. repeat split; intros; auto; try discriminate; settle.
  - rewrite Hm, Hinit. cbn [exit_status].
    repeat split; intros; auto; try discriminate; settle.
  - rewrite Hinit.
    destruct (requested_conversion L conv (args_quantization args) w1)
      as [[] w2|e w2] eqn:Hrun; rewrite Hm;
      repeat split; intros; auto; try discriminate;
      first [by exists conv, w1, w2 | settle].
Qed.

(** C10. With a single quantization mode ([--quantization] other than
    ["all"]), once the export returned [True] the metadata is written
    whatever the convert step returned: when the convert step returns
    [False], [main] returns 1 and the metadata file is on disk. *)
Theorem C10_metadata_written_after_failed_convert (args : Args)
    (w w1 w2 w3 w4 w5 : World) (conv : Converter) (model : YoloModel) (ok : bool) :
  String.eqb (args_quantization args) "all" = false ->
  is_Some (fs w !! Path L (args_model_path args)) ->
  __init__ L (args_model_path args) (args_output_dir args) (args_model_name args) w
    = Ret conv w1 ->
  load_yolo_model L conv w1 = Ret model w2 ->
  export_to_onnx L conv model w2 = Ret true w3 ->
  convert_to_tflite L conv (args_quantization args) w3 = Ret ok w4 ->
  create_model_metadata L conv w4 = Ret tt w5 ->
  exit_status (main L args w) = (if ok then 0 else 1) /\
  fs (world_of (main L args w)) !! metadata_path L conv = Some (Json (metadata conv)) /\
  metadata_path L conv =
    joinpath L (Path L (args_output_dir args)) (args_model_name args ++ "_metadata.json").
Proof.
  intros Hq Hp Hinit Hload Hexp Hconv Hmeta.
  pose proof (main_conversion args w conv w1 Hp Hinit) as Hm.
  assert (Hrun : requested_conversion L conv (args_quantization args) w1 = Ret ok w5).
  { unfold requested_conversion. rewrite Hq.
    rewrite bind_unfold, Hload, bind_unfold, Hexp, bind_unfold, Hconv, bind_unfold, Hmeta.
    reflexivity. }
  rewrite Hrun in Hm.
  destruct (metadata_written _ _ _ Hmeta) as [Hfs _].
  assert (Hlook : fs w5 !! metadata_path L conv = Some (Json (metadata conv)))
    by (rewrite Hfs; apply lookup_insert_eq).
  split; [|split].
  - destruct ok; [destruct Hm as (w' & -> & _)|rewrite Hm]; reflexivity.
  - destruct ok; [destruct Hm as (w' & -> & Hw')|rewrite Hm]; cbn [world_of logged fs];
      [rewrite Hw'|]; exact Hlook.
  - apply init_fields in Hinit. subst conv. reflexivity.
Qed.

(** ** The benchmark step *)

Lemma bind_ret_inv {A B} (m : M A) (f : A -> M B) w b w' :
  (m ≫= f) w = Ret b w' -> exists a w1, m w = Ret a w1 /\ f a w1 = Ret b w'.
Proof. rewrite bind_unfold. destruct (m w) as [a w1|e w1]; [eauto | discriminate]. Qed.

Lemma call_ret_inv {A} (c : Call A) w a w' :
  call L c w = Ret a w' ->
  oracle L A (fs w) (calls w) c = inr a /\
  w' = mkWorld (fs w) (calls w ++ [Ev c (inr a)]) (logs w).
Proof.
  unfold call. destruct (oracle L A (fs w) (calls w) c); [discriminate|].
  intros [= <- <-]. auto.
Qed.

Lemma log_ret_inv l m w u w' : log l m w = Ret u w' -> w' = logged w (l, m).
Proof. intros [= _ <-]. reflexivity. Qed.

Lemma index0_ret_inv {A} (l : list A) w a w' :
  index0 l w = Ret a w' -> head l = Some a /\ w' = w.
Proof. destruct l; [discriminate|]. intros [= <- <-]. auto. Qed.









End Facts.

(** ** Narrowing floats *)

Lemma shr_1_div2 mrs : 0 <= shr_m mrs -> shr_m (shr_1 mrs) = shr_m mrs / 2.
Proof.
  destruct mrs as [m r s]. cbn [shr_m shr_1]. intros Hm.
  destruct m as [|p|p]; [reflexivity| |lia].
  destruct p as [p|p|]; cbn [shr_m].
  - change (Zpos p~1) with (2 * Zpos p + 1). apply Z.div_unique with 1; lia.
  - change (Zpos p~0) with (2 * Zpos p). apply Z.div_unique with 0; lia.
  - reflexivity.
Qed.

Lemma shr_iter_div p : forall mrs,
  0 <= shr_m mrs -> shr_m (SpecFloat.iter_pos shr_1 p mrs) = shr_m mrs / 2 ^ Zpos p.
Proof.
  induction p as [p IH|p IH|]; intros mrs Hm; cbn [SpecFloat.iter_pos].
  - assert (H1 : 0 <= shr_m (shr_1 mrs)) by (rewrite shr_1_div2 by lia; apply Z.div_pos; lia).
    assert (H2 : 0 <= shr_m (SpecFloat.iter_pos shr_1 p (shr_1 mrs)))
      by (rewrite IH by lia; apply Z.div_pos; lia).
    rewrite IH, IH, shr_1_div2 by lia.
    rewrite !Z.div_div by lia. f_equal.
    rewrite Pos2Z.inj_xI, <- Z.pow_add_r, <- (Z.pow_1_r 2) at 1 by lia.
    rewrite <- Z.pow_add_r by lia. f_equal. lia.
  - assert (H2 : 0 <= shr_m (SpecFloat.iter_pos shr_1 p mrs))
      by (rewrite IH by lia; apply Z.div_pos; lia).
    rewrite IH, IH by lia. rewrite Z.div_div by lia. f_equal.
    rewrite Pos2Z.inj_xO, <- Z.pow_add_r by lia. f_equal. lia.
  - rewrite shr_1_div2 by lia. reflexivity.
Qed.

Lemma digits2_pos_lower m : 2 ^ (Zpos (digits2_pos m) - 1) <= Zpos m.
Proof.
  induction m as [m IH|m IH|]; cbn [digits2_pos].
  - rewrite Pos2Z.inj_succ. change (Zpos m~1) with (2 * Zpos m + 1).
    replace (Z.succ (Zpos (digits2_pos m)) - 1) with (Z.succ (Zpos (digits2_pos m) - 1)) by lia.
    rewrite Z.pow_succ_r by lia. set (t := 2 ^ _) in *. clearbody t. lia.
  - rewrite Pos2Z.inj_succ. change (Zpos m~0) with (2 * Zpos m).
    replace (Z.succ (Zpos (digits2_pos m)) - 1) with (Z.succ (Zpos (digits2_pos m) - 1)) by lia.
    rewrite Z.pow_succ_r by lia. set (t := 2 ^ _) in *. clearbody t. lia.
  - cbn. lia.
Qed.

Lemma Zdigits2_le m k : 0 <= k -> 0 <= m < 2 ^ k -> Zdigits2 m <= k.
Proof.
  intros Hk [Hm Hlt]. destruct m as [|p|p]; cbn [Zdigits2]; [lia| |lia].
  pose proof (digits2_pos_lower p) as Hlow.
  destruct (Z_le_gt_dec (Zpos (digits2_pos p)) k) as [|Hgt]; [assumption|].
  assert (2 ^ k <= 2 ^ (Zpos (digits2_pos p) - 1)) by (apply Z.pow_le_mono_r; lia).
  set (t := 2 ^ k) in *. set (u := 2 ^ _) in *. clearbody t u. lia.
Qed.

Section Rounding.

Variables prec emax : Z.
Hypothesis Hprec : 1 < prec.
Hypothesis Hemax : prec <= emax.

Lemma fexp_nonpos z : z <= prec -> fexp prec emax z <= 0.
Proof. unfold fexp, emin. lia. Qed.

Lemma shr_m_of_loc m l : shr_m (shr_record_of_loc m l) = m.
Proof. destruct l as [|[]]; reflexivity. Qed.

(** Shifting to the canonical exponent keeps a value at most 1 (below 1). *)
Lemma shr_fexp_bound m e l :
  0 <= m -> e <= 0 -> m <= 2 ^ (- e) ->
  let '(mrs, e') := shr_fexp prec emax m e l in
  0 <= shr_m mrs /\ e' <= 0 /\ shr_m mrs <= 2 ^ (- e') /\
  (m < 2 ^ (- e) -> shr_m mrs < 2 ^ (- e')).
Proof.
  intros Hm He Hle. unfold shr_fexp, shr.
  assert (Hdig : Zdigits2 m + e <= prec).
  { assert (Zdigits2 m <= - e + 1); [|lia].
    apply Zdigits2_le; [lia|]. rewrite Z.pow_add_r, Z.pow_1_r by lia.
    assert (0 < 2 ^ (- e)) by (apply Z.pow_pos_nonneg; lia).
    set (t := 2 ^ _) in *. clearbody t. lia. }
  pose proof (fexp_nonpos _ Hdig) as Hf.
  destruct (fexp prec emax (Zdigits2 m + e) - e) as [|p|p] eqn:Hn;
    try (rewrite shr_m_of_loc; repeat split; auto; lia).
  rewrite shr_iter_div, shr_m_of_loc by (rewrite shr_m_of_loc; lia).
  assert (Hpow : 2 ^ (- e) = 2 ^ Zpos p * 2 ^ (- (e + Zpos p)))
    by (rewrite <- Z.pow_add_r by lia; f_equal; lia).
  assert (0 < 2 ^ Zpos p) by (apply Z.pow_pos_nonneg; lia).
  repeat split.
  - apply Z.div_pos; lia.
  - lia.
  - apply Z.div_le_upper_bound; [lia|]. rewrite <- Hpow. exact Hle.
  - intros Hlt. apply Z.div_lt_upper_bound; [lia|]. rewrite <- Hpow. exact Hlt.
Qed.

Lemma round_nearest_even_bound m l :
  m <= round_nearest_even m l <= m + 1.
Proof.
  unfold round_nearest_even. destruct l as [|[]]; try lia.
  destruct (Z.even m); lia.
Qed.

Lemma binary_round_aux_bound m e l :
  0 <= m -> e <= 0 -> m < 2 ^ (- e) ->
  in_closed_unit (binary_round_aux prec emax false m e l) = true.
Proof.
  intros Hm He Hlt. unfold binary_round_aux.
  pose proof (shr_fexp_bound m e l Hm He ltac:(lia)) as H1.
  destruct (shr_fexp prec emax m e l) as [mrs' e'].
  destruct H1 as (Hm' & He' & _ & Hlt'). specialize (Hlt' Hlt).
  pose proof (round_nearest_even_bound (shr_m mrs') (loc_of_shr_record mrs')) as Hr.
  set (m'' := round_nearest_even _ _) in *.
  pose proof (shr_fexp_bound m'' e' loc_Exact ltac:(lia) He' ltac:(lia)) as H2.
  destruct (shr_fexp prec emax m'' e' loc_Exact) as [mrs'' e''].
  destruct H2 as (Hm3 & He3 & Hle3 & _).
  destruct (shr_m mrs'') as [|p|p]; [reflexivity| |lia].
  rewrite (proj2 (Z.leb_le e'' (emax - prec))) by lia.
  cbn [in_closed_unit]. apply andb_true_intro. split.
  - apply Z.leb_le. exact He3.
  - apply Z.leb_le. exact Hle3.
Qed.

Lemma shl_align_bound m e e' :
  e <= 0 -> Zpos m < 2 ^ (- e) ->
  let '(mz, ez) := shl_align m e e' in
  ez <= 0 /\ Zpos mz < 2 ^ (- ez).
Proof.
  intros He Hlt. unfold shl_align.
  destruct (e' - e) as [|d|d] eqn:Hd; auto.
  split; [lia|].
  change (Pos.iter xO m d) with (shift_pos d m).
  rewrite shift_pos_correct, Z.pow_pos_fold.
  replace (- e') with (Zpos d + - e) by lia.
  rewrite Z.pow_add_r by lia.
  apply Z.mul_lt_mono_pos_l; [apply Z.pow_pos_nonneg; lia | exact Hlt].
Qed.

(** Narrowing a float of [[0, 1)] gives a float of [[0, 1]]. *)
Lemma round_to_unit x :
  in_unit x = true -> in_closed_unit (round_to prec emax x) = true.
Proof.
  destruct x as [s|s| |s m e]; try discriminate; [reflexivity|].
  destruct s; [discriminate|]. cbn [in_unit round_to].
  intros H. apply andb_prop in H as [He Hm].
  apply Z.ltb_lt in He, Hm. unfold binary_round.
  pose proof (shl_align_bound m e (fexp prec emax (Zpos (digits2_pos m) + e))
                ltac:(lia) Hm) as Hs.
  destruct (shl_align m e _) as [mz ez]. destruct Hs as [Hez Hmz].
  apply binary_round_aux_bound; lia.
Qed.

End Rounding.

(** ** The calibration data *)

Section Calibration.

Variable L : Lib.

Section CallsAll.

Variable P : Event -> Prop.

Lemma calls_all_pure {A} (m : M A) :
  (forall w, calls (world_of (m w)) = calls w) -> calls_all P m.
Proof. intros H w. exists []. rewrite H, app_nil_r. auto. Qed.

Lemma calls_all_ret {A} (a : A) : calls_all P (mret a : M A).
Proof. apply calls_all_pure. reflexivity. Qed.

Lemma calls_all_raise {A} e : calls_all P (raise e : M A).
Proof. apply calls_all_pure. reflexivity. Qed.

Lemma calls_all_log l m : calls_all P (log l m).
Proof. apply calls_all_pure. reflexivity. Qed.

Lemma calls_all_get_fs : calls_all P get_fs.
Proof. apply calls_all_pure. reflexivity. Qed.

Lemma calls_all_set_fs f : calls_all P (set_fs f).
Proof. apply calls_all_pure. reflexivity. Qed.

Lemma calls_all_index0 {A} (l : list A) : calls_all P (index0 l).
Proof. destruct l; [apply calls_all_raise | apply calls_all_ret]. Qed.

Lemma calls_all_call {A} (c : Call A) :
  (forall r, P (Ev c r)) -> calls_all P (call L c).
Proof.
  intros Hc w. unfold call.
  exists [Ev c (oracle L A (fs w) (calls w) c)].
  destruct (oracle L A (fs w) (calls w) c); cbn [world_of calls]; auto.
Qed.

Lemma calls_all_call_leaving {A} (c : Call A) left :
  (forall r, P (Ev c r)) -> calls_all P (call_leaving L c left).
Proof.
  intros Hc w. unfold call_leaving.
  exists [Ev c (oracle L A (fs w) (calls w) c)].
  destruct (oracle L A (fs w) (calls w) c); cbn [world_of calls]; auto.
Qed.

Lemma calls_all_path_with_suffix p s : calls_all P (path_with_suffix L p s).
Proof.
  unfold path_with_suffix.
  destruct (String.eqb _ _); [apply calls_all_raise | apply calls_all_ret].
Qed.

Lemma calls_all_bind {A B} (m : M A) (f : A -> M B) :
  calls_all P m -> (forall a, calls_all P (f a)) -> calls_all P (m ≫= f).
Proof.
  intros Hm Hf w. rewrite bind_unfold.
  destruct (Hm w) as (n1 & Hc1 & Hp1).
  destruct (m w) as [a w'|e w']; cbn [world_of] in *; [|eauto].
  destruct (Hf a w') as (n2 & Hc2 & Hp2).
  exists (n1 ++ n2)%list. rewrite Hc2, Hc1, app_assoc.
  split; [reflexivity | apply Forall_app; auto].
Qed.

Lemma calls_all_try_except {A} (body : M A) (handler : Exn -> M A) :
  calls_all P body -> (forall e, calls_all P (handler e)) ->
  calls_all P (try_except body handler).
Proof.
  intros Hb Hh w. unfold try_except.
  destruct (Hb w) as (n1 & Hc1 & Hp1).
  destruct (body w) as [a w'|e w']; cbn [world_of] in *; [eauto|].
  destruct (Hh e w') as (n2 & Hc2 & Hp2).
  exists (n1 ++ n2)%list. rewrite Hc2, Hc1, app_assoc.
  split; [reflexivity | apply Forall_app; auto].
Qed.

Lemma calls_all_for_range n (body : M unit) :
  calls_all P body -> calls_all P (for_range n body).
Proof.
  intros Hb. induction n as [|n IH]; cbn [for_range].
  - apply calls_all_ret.
  - apply calls_all_bind; auto.
Qed.

Lemma calls_all_for_each {A B} (xs : list B) (acc : A) (body : A -> B -> M A) :
  (forall a x, calls_all P (body a x)) -> calls_all P (for_each xs acc body).
Proof.
  intros Hb. revert acc. induction xs as [|x xs IH]; intros acc; cbn [for_each].
  - apply calls_all_ret.
  - apply calls_all_bind; auto.
Qed.

End CallsAll.

Create HintDb calls.
#[local] Hint Resolve calls_all_ret calls_all_raise calls_all_log calls_all_get_fs
  calls_all_set_fs calls_all_index0 calls_all_for_range calls_all_for_each : calls.
#[local] Hint Extern 1 (calls_all _ (call _ _)) =>
  (apply calls_all_call; intros; first [exact I | reflexivity]) : calls.
#[local] Hint Extern 1 (calls_all _ (call_leaving _ _ _)) =>
  (apply calls_all_call_leaving; intros; first [exact I | reflexivity]) : calls.
#[local] Hint Extern 2 (calls_all _ (_ ≫= _)) =>
  (apply calls_all_bind; [|intros]) : calls.
#[local] Hint Extern 2 (calls_all _ (try_except _ _)) =>
  (apply calls_all_try_except; [|intros]) : calls.
#[local] Hint Extern 3 (calls_all _ (if ?b then _ else _)) => destruct b : calls.




End Calibration.

(** * Further properties of the script *)

Section More.

Variable L : Lib.

Ltac open_monad :=
  unfold try_except, call, call_writing, call_leaving, log, get_fs, set_fs, path_exists,
    raise, index0, mbind, M_bind, mret, M_ret.

Ltac tidy :=
  cbn beta iota delta [fs calls logs world_of returns
    source_onnx optimizations supported_types supported_ops
    representative_dataset inference_input_type inference_output_type
    experimental_new_converter allow_custom_ops fst snd].

Ltac case_call :=
  match goal with
  | |- context [oracle ?L ?A ?f ?h ?c] =>
      let E := fresh "Hcall" in
      destruct (oracle L A f h c) eqn:E; tidy
  end.

Ltac case_list :=
  match goal with
  | |- context [match ?l with [] => _ | _ :: _ => _ end] => destruct l; tidy
  end.

(** ** Steps that keep the file system *)

Lemma fs_kept_ret {A} (a : A) : fs_kept (mret a : M A).
Proof. intros w. reflexivity. Qed.

Lemma fs_kept_raise {A} e : fs_kept (raise e : M A).
Proof. intros w. reflexivity. Qed.

Lemma fs_kept_log l m : fs_kept (log l m).
Proof. intros w. reflexivity. Qed.

Lemma fs_kept_index0 {A} (l : list A) : fs_kept (index0 l).
Proof. destruct l; intros w; reflexivity. Qed.

Lemma fs_kept_call {A} (c : Call A) : fs_kept (call L c).
Proof.
  intros w. unfold call. destruct (oracle L A (fs w) (calls w) c); reflexivity.
Qed.

Lemma fs_kept_bind {A B} (m : M A) (f : A -> M B) :
  fs_kept m -> (forall a, fs_kept (f a)) -> fs_kept (m ≫= f).
Proof.
  intros Hm Hf w. rewrite bind_unfold. specialize (Hm w).
  destruct (m w) as [a w'|e w']; cbn [world_of] in *; [|exact Hm].
  rewrite Hf. exact Hm.
Qed.

Lemma fs_kept_try_except {A} (body : M A) (handler : Exn -> M A) :
  fs_kept body -> (forall e, fs_kept (handler e)) -> fs_kept (try_except body handler).
Proof.
  intros Hb Hh w. unfold try_except. specialize (Hb w).
  destruct (body w) as [a w'|e w']; cbn [world_of] in *; [exact Hb|].
  rewrite Hh. exact Hb.
Qed.

Lemma fs_kept_for_range n (body : M unit) : fs_kept body -> fs_kept (for_range n body).
Proof.
  intros Hb. induction n as [|n IH]; cbn [for_range].
  - apply fs_kept_ret.
  - apply fs_kept_bind; auto.
Qed.

Lemma fs_kept_for_each {A B} (xs : list B) (acc : A) (body : A -> B -> M A) :
  (forall a x, fs_kept (body a x)) -> fs_kept (for_each xs acc body).
Proof.
  intros Hb. revert acc. induction xs as [|x xs IH]; intros acc; cbn [for_each].
  - apply fs_kept_ret.
  - apply fs_kept_bind; auto.
Qed.

Create HintDb kept.
#[local] Hint Resolve fs_kept_ret fs_kept_raise fs_kept_log fs_kept_index0 fs_kept_call
  fs_kept_for_range fs_kept_for_each : kept.
#[local] Hint Extern 2 (fs_kept (_ ≫= _)) => (apply fs_kept_bind; [|intros]) : kept.
#[local] Hint Extern 2 (fs_kept (try_except _ _)) =>
  (apply fs_kept_try_except; [|intros]) : kept.
#[local] Hint Extern 3 (fs_kept (if ?b then _ else _)) => destruct b : kept.

Create HintDb reads.
#[local] Hint Resolve calls_all_ret calls_all_raise calls_all_log calls_all_index0
  calls_all_for_range calls_all_for_each : reads.
#[local] Hint Extern 1 (calls_all _ (call _ _)) =>
  (apply calls_all_call; intros; reflexivity) : reads.
#[local] Hint Extern 2 (calls_all _ (_ ≫= _)) =>
  (apply calls_all_bind; [|intros]) : reads.
#[local] Hint Extern 2 (calls_all _ (try_except _ _)) =>
  (apply calls_all_try_except; [|intros]) : reads.
#[local] Hint Extern 3 (calls_all _ (if ?b then _ else _)) => destruct b : reads.

Lemma verify_onnx_kept self : fs_kept (_verify_onnx_model L self).
Proof. unfold _verify_onnx_model. auto 30 with kept. Qed.

Lemma verify_tflite_kept self p : fs_kept (_verify_tflite_model L self p).
Proof. unfold _verify_tflite_model. auto 40 with kept. Qed.

Lemma benchmark_kept self p n : fs_kept (_benchmark_model L self p n).
Proof. unfold _benchmark_model. auto 40 with kept. Qed.

Lemma load_kept self : fs_kept (load_yolo_model L self).
Proof. unfold load_yolo_model. auto 30 with kept. Qed.

(** X1. The three diagnostics (verification of the interchange artifact,
    validation and benchmark of a converted artifact) never change the file
    system and make no call that writes to it, whether they succeed or
    fail. *)
Theorem diagnostics_write_nothing (self : Converter) (p : string) (n : nat) (w : World) :
  (fs (world_of (_verify_onnx_model L self w)) = fs w /\
   fs (world_of (_verify_tflite_model L self p w)) = fs w /\
   fs (world_of (_benchmark_model L self p n w)) = fs w) /\
  (exists new, calls (world_of (_verify_onnx_model L self w)) = (calls w ++ new)%list /\
               Forall reads_only new) /\
  (exists new, calls (world_of (_verify_tflite_model L self p w)) = (calls w ++ new)%list /\
               Forall reads_only new) /\
  (exists new, calls (world_of (_benchmark_model L self p n w)) = (calls w ++ new)%list /\
               Forall reads_only new).
Proof.
  split; [|split; [|split]].
  - split; [apply verify_onnx_kept|]. split; [apply verify_tflite_kept|].
    apply benchmark_kept.
  - assert (H : calls_all reads_only (_verify_onnx_model L self))
      by (unfold _verify_onnx_model; auto 30 with reads).
    apply H.
  - assert (H : calls_all reads_only (_verify_tflite_model L self p))
      by (unfold _verify_tflite_model; auto 40 with reads).
    apply H.
  - assert (H : calls_all reads_only (_benchmark_model L self p n))
      by (unfold _benchmark_model; auto 40 with reads).
    apply H.
Qed.

(** ** The verification of the interchange artifact *)

(** X2. [_verify_onnx_model] returns [True] exactly when the artifact loads,
    the checker accepts it, and the graph has at least one input and one
    output; a graph without inputs or outputs makes it return [False]
    (the [IndexError] is caught), as does any library failure. *)
Theorem verify_onnx_true_iff (self : Converter) (w : World) :
  (exists w', _verify_onnx_model L self w = Ret true w') <->
  (exists m,
     oracle L OnnxModel (fs w) (calls w) (OnnxLoad (onnx_path self)) = inr m /\
     oracle L unit (fs w) (calls w ++ [Ev (OnnxLoad (onnx_path self)) (inr m)])
       (OnnxCheckModel m) = inr tt /\
     graph_input m <> [] /\ graph_output m <> []).
Proof.
  unfold _verify_onnx_model. open_monad. tidy. split.
  - destruct (oracle L OnnxModel _ _ _) as [e|m]; tidy;
      [intros [w' H]; discriminate|].
    destruct (oracle L unit _ _ (OnnxCheckModel m)) as [e|[]] eqn:Hcheck; tidy;
      [intros [w' H]; discriminate|].
    destruct (graph_input m) as [|i ins] eqn:Hin; tidy;
      [intros [w' H]; discriminate|].
    destruct (graph_output m) as [|o outs] eqn:Hout; tidy;
      [intros [w' H]; discriminate|].
    intros _. exists m. rewrite Hin, Hout. repeat split; try discriminate.
    exact Hcheck.
  - intros (m & Hload & Hcheck & Hin & Hout). rewrite Hload. tidy.
    rewrite Hcheck. tidy.
    destruct (graph_input m); [contradiction|]. tidy.
    destruct (graph_output m); [contradiction|]. tidy. eauto.
Qed.

(** ** The outcomes of the export step *)

Lemma export_and_relocate_cases (self : Converter) (model : YoloModel) (w : World) :
  export_and_relocate L self model w =
  let export := ModelExport model "onnx" (input_size self) false true 11 in
  let announced := (logs w ++ [(INFO, ExportingOnnx (onnx_path self))])%list in
  match oracle L FS (fs w) (calls w) export with
  | inl e => Raise e (mkWorld (debris L FS (fs w) (calls w) export)
                        (calls w ++ [Ev export (inl e)]) announced)
  | inr f =>
      let w1 := mkWorld f (calls w ++ [Ev export (inr f)]) announced in
      if String.eqb (path_name L (model_path self)) "" then
        Raise (ValueError (model_path self)) w1
      else
        match f !! with_suffix L (model_path self) ".onnx" with
        | None => Ret tt w1
        | Some c =>
            match oracle L unit f (calls w1)
                    (Rename (with_suffix L (model_path self) ".onnx") (onnx_path self)) with
            | inl e => Raise e (mkWorld f (calls w1 ++
                         [Ev (Rename (with_suffix L (model_path self) ".onnx")
                                (onnx_path self)) (inl e)]) (logs w1))
            | inr u => Ret tt (mkWorld
                         (<[onnx_path self := c]>
                            (delete (with_suffix L (model_path self) ".onnx") f))
                         (calls w1 ++
                          [Ev (Rename (with_suffix L (model_path self) ".onnx")
                                 (onnx_path self)) (inr u)]) (logs w1))
            end
        end
  end.
Proof.
  unfold export_and_relocate, path_with_suffix. open_monad. tidy.
  destruct (oracle L FS _ _ _) as [e|f]; tidy; [reflexivity|].
  destruct (String.eqb (path_name L (model_path self)) ""); tidy; [reflexivity|].
  destruct (f !! with_suffix L (model_path self) ".onnx") as [c|] eqn:Hgen.
  - rewrite bool_decide_eq_true_2 by eauto.
    destruct (oracle L unit _ _ (Rename _ _)) as [e|[]]; tidy; [reflexivity|].
    rewrite Hgen. reflexivity.
  - rewrite bool_decide_eq_false_2 by (intros [x Hx]; discriminate). reflexivity.
Qed.

Lemma export_after_relocation (self : Converter) (w1 : World) :
  exists w',
    (_verify_onnx_model L self ≫= (fun _ : bool => log INFO ExportDone ;; mret true)) w1
      = Ret true w' /\
    fs w' = fs w1.
Proof.
  rewrite bind_unfold.
  pose proof (verify_onnx_kept self w1) as Hk.
  destruct (verify_onnx_total L self w1) as (b & w2 & Hv). rewrite Hv in *.
  eexists. split; [reflexivity|]. exact Hk.
Qed.

(** X3. What [export_to_onnx] returns and leaves on disk, case by case
    ([exists()] being a lookup that does not raise).
    - The library export raises: [False]; the disk is what the failed export
      left behind and the export is the only call made.
    - The export returns and the source model path has an empty name, so
      that [with_suffix] raises [ValueError]: [False]; the disk is as the
      export left it and the export is the only call made.
    - The export returns and leaves no file at the default place: [True],
      with the disk as the export left it.
    - The file is there and the rename raises: [False], with the file still
      at the default place and the rename the last call made.
    - The file is there and the rename returns: [True], with the file moved
      to the interchange path. *)
Theorem export_outcomes (self : Converter) (model : YoloModel) (w : World) :
  let generated_onnx := with_suffix L (model_path self) ".onnx" in
  let export := ModelExport model "onnx" (input_size self) false true 11 in
  match oracle L FS (fs w) (calls w) export with
  | inl e =>
      exists w', export_to_onnx L self model w = Ret false w' /\
                 fs w' = debris L FS (fs w) (calls w) export /\
                 calls w' = (calls w ++ [Ev export (inl e)])%list
  | inr f =>
      if String.eqb (path_name L (model_path self)) "" then
        exists w', export_to_onnx L self model w = Ret false w' /\
                   fs w' = f /\
                   calls w' = (calls w ++ [Ev export (inr f)])%list /\
                   last (logs w') = Some (ERROR, ExportFailed (ValueError (model_path self)))
      else
        match f !! generated_onnx with
        | None => exists w', export_to_onnx L self model w = Ret true w' /\ fs w' = f
        | Some c =>
            match oracle L unit f (calls w ++ [Ev export (inr f)])
                    (Rename generated_onnx (onnx_path self)) with
            | inl e =>
                exists w', export_to_onnx L self model w = Ret false w' /\
                           fs w' = f /\
                           calls w' =
                             (calls w ++ [Ev export (inr f);
                                          Ev (Rename generated_onnx (onnx_path self)) (inl e)])%list
            | inr _ =>
                exists w', export_to_onnx L self model w = Ret true w' /\
                           fs w' = <[onnx_path self := c]> (delete generated_onnx f)
            end
        end
  end.
Proof.
  cbv zeta.
  assert (Hstep : forall w1,
            export_and_relocate L self model w = Ret tt w1 ->
            exists w', export_to_onnx L self model w = Ret true w' /\ fs w' = fs w1).
  { intros w1 Hpre. rewrite export_split. unfold try_except at 1.
    rewrite bind_unfold, Hpre.
    destruct (export_after_relocation self w1) as (w' & -> & Hfs). eauto. }
  assert (Hfail : forall e w1,
            export_and_relocate L self model w = Raise e w1 ->
            export_to_onnx L self model w = Ret false (logged w1 (ERROR, ExportFailed e))).
  { intros e w1 Hpre. rewrite export_split. unfold try_except at 1.
    rewrite bind_unfold, Hpre. reflexivity. }
  rewrite export_and_relocate_cases in Hstep, Hfail. cbv zeta in Hstep, Hfail.
  destruct (oracle L FS _ _ _) as [e|f].
  { eexists. split; [exact (Hfail _ _ eq_refl)|]. split; reflexivity. }
  destruct (String.eqb (path_name L (model_path self)) "").
  { eexists. split; [exact (Hfail _ _ eq_refl)|].
    split; [reflexivity|]. split; [reflexivity|]. cbn [logged logs]. apply last_snoc. }
  destruct (f !! with_suffix L (model_path self) ".onnx") as [c|].
  - cbn [calls] in Hstep, Hfail.
    destruct (oracle L unit _ _ (Rename _ _)) as [e|u].
    + eexists. split; [exact (Hfail _ _ eq_refl)|]. split; [reflexivity|].
      cbn [logged calls]. rewrite <- app_assoc. reflexivity.
    + exact (Hstep _ eq_refl).
  - exact (Hstep _ eq_refl).
Qed.

(** ** What a convert step leaves on disk *)

Lemma configured_path (self : Converter) (q : string) :
  (configured L self q).1 =
  if String.eqb q "fp16" then tflite_fp16_path self
  else if String.eqb q "int8" then tflite_int8_path self
  else tflite_path self.
Proof.
  unfold configured.
  destruct (String.eqb q "fp16"); [|destruct (String.eqb q "int8")]; reflexivity.
Qed.

Lemma convert_and_save_returns (self : Converter) (q : string) (w : World) p w1 :
  convert_and_save L self q w = Ret p w1 ->
  p = (configured L self q).1 /\
  exists b,
    fs w1 = <[p := Blob b]> (fs w) /\
    In (Ev (Convert (configured L self q).2) (inr b)) (calls w1).
Proof.
  unfold convert_and_save. destruct (configured L self q) as [p0 c].
  open_monad. tidy. repeat case_call; try discriminate.
  intros [= <- <-]. tidy. split; [reflexivity|]. eexists.
  rewrite insert_insert_eq. split; [reflexivity|].
  rewrite !in_app_iff. cbn [In]. auto 10.
Qed.

Lemma convert_and_save_raises (self : Converter) (q : string) (w : World) e w1 :
  convert_and_save L self q w = Raise e w1 ->
  fs w1 = fs w \/
  exists b n,
    In (Ev (Convert (configured L self q).2) (inr b)) (calls w1) /\
    fs w1 = <[(configured L self q).1 := Blob (take n b)]> (fs w).
Proof.
  unfold convert_and_save. destruct (configured L self q) as [p0 c].
  open_monad. tidy. repeat case_call; try discriminate;
    intros [= <- <-]; tidy; auto.
  right. eexists _, _. rewrite insert_insert_eq. split; [|reflexivity].
  rewrite !in_app_iff. cbn [In]. auto 10.
Qed.

Lemma verify_tflite_reads self p :
  calls_all reads_only (_verify_tflite_model L self p).
Proof. unfold _verify_tflite_model. auto 40 with reads. Qed.

Lemma benchmark_reads self p n :
  calls_all reads_only (_benchmark_model L self p n).
Proof. unfold _benchmark_model. auto 40 with reads. Qed.

Lemma convert_result (self : Converter) (q : string) (w : World) :
  match convert_and_save L self q w with
  | Ret p w1 =>
      exists w', convert_to_tflite L self q w = Ret true w' /\ fs w' = fs w1 /\
                 exists new, calls w' = (calls w1 ++ new)%list
  | Raise e w1 =>
      convert_to_tflite L self q w = Ret false (logged w1 (ERROR, ConvertFailed e))
  end.
Proof.
  destruct (convert_and_save L self q w) as [p w1|e w1] eqn:Hsave;
    rewrite convert_split; unfold try_except; rewrite bind_unfold, Hsave;
    [|reflexivity].
  rewrite bind_unfold.
  pose proof (verify_tflite_kept self p w1) as Hk1.
  destruct (verify_tflite_reads self p w1) as (n1 & Hn1 & _).
  destruct (verify_tflite_total L self p w1) as (b & w2 & Hv). rewrite Hv in *.
  cbn [world_of] in *. rewrite bind_unfold.
  pose proof (benchmark_kept self p default_num_runs w2) as Hk2.
  destruct (benchmark_reads self p default_num_runs w2) as (n2 & Hn2 & _).
  destruct (benchmark_total L self p default_num_runs w2) as ([] & w3 & Hb).
  rewrite Hb in *. cbn [world_of] in *.
  eexists. split; [reflexivity|]. split; [congruence|].
  exists (n1 ++ n2)%list. cbn [calls]. rewrite Hn2, Hn1, app_assoc. reflexivity.
Qed.

(** X4. When a convert step returns [True], the disk differs from the one
    it started on in exactly one place: the mode's output path
    ([<name>_fp16.tflite] for ["fp16"], [<name>_int8.tflite] for ["int8"],
    [<name>.tflite] for every other mode string) now holds the bytes that
    [converter.convert()] returned, replacing whatever was there. *)
Theorem convert_success_writes_artifact (self : Converter) (q : string) (w w' : World) :
  convert_to_tflite L self q w = Ret true w' ->
  let output_path :=
    if String.eqb q "fp16" then tflite_fp16_path self
    else if String.eqb q "int8" then tflite_int8_path self
    else tflite_path self in
  exists tflite_model settings,
    fs w' = <[output_path := Blob tflite_model]> (fs w) /\
    In (Ev (Convert settings) (inr tflite_model)) (calls w').
Proof.
  intros Hconv. cbv zeta. rewrite <- configured_path.
  pose proof (convert_result self q w) as Hres.
  destruct (convert_and_save L self q w) as [p w1|e w1] eqn:Hsave.
  - destruct Hres as (w2 & Hc & Hfs & new & Hcalls).
    rewrite Hconv in Hc. injection Hc as <-.
    apply convert_and_save_returns in Hsave as (-> & b & Hfs1 & Hin).
    exists b, (configured L self q).2. rewrite Hfs, Hfs1. split; [reflexivity|].
    rewrite Hcalls. apply in_or_app. auto.
  - rewrite Hconv in Hres. discriminate.
Qed.

(** X5. When a convert step returns [False], no cleanup was done and
    nothing but the artifact was touched: the disk is as the step found it
    (a previous artifact is still there), or it differs only at the mode's
    output path, which holds a partial artifact: the first [n] bytes, for
    some [n], possibly none, of what [converter.convert()] returned (the
    file was opened for writing and the write then failed). *)
Theorem convert_failure_leaves_old_or_partial (self : Converter) (q : string)
    (w w' : World) :
  convert_to_tflite L self q w = Ret false w' ->
  let output_path :=
    if String.eqb q "fp16" then tflite_fp16_path self
    else if String.eqb q "int8" then tflite_int8_path self
    else tflite_path self in
  fs w' = fs w \/
  exists tflite_model settings n,
    In (Ev (Convert settings) (inr tflite_model)) (calls w') /\
    fs w' = <[output_path := Blob (take n tflite_model)]> (fs w).
Proof.
  intros Hconv. cbv zeta. rewrite <- configured_path.
  pose proof (convert_result self q w) as Hres.
  destruct (convert_and_save L self q w) as [p w1|e w1] eqn:Hsave.
  - destruct Hres as (w2 & Hc & _). rewrite Hconv in Hc. discriminate.
  - rewrite Hconv in Hres. injection Hres as ->.
    apply convert_and_save_raises in Hsave as [Hsame|(b & n & Hin & Hfs)];
      [left; exact Hsame|].
    right. exists b, (configured L self q).2, n. split; [exact Hin | exact Hfs].
Qed.

(** ** The constructor *)

Lemma mkdir_steps (qs : list string) (f : FS) :
  let f' := foldr (fun q m => match m !! q with None => <[q := Dir]> m | Some _ => m end)
                  f qs in
  (forall p c, f !! p = Some c -> f' !! p = Some c) /\
  (forall p, In p qs -> is_Some (f' !! p)) /\
  (forall p, f' !! p <> f !! p -> f' !! p = Some Dir).
Proof.
  induction qs as [|q qs IH]; cbn [foldr].
  - repeat split; [auto | intros p [] | intros p H; congruence].
  - cbv zeta in IH. destruct IH as (Hkeep & Hin & Hnew).
    set (g := foldr _ f qs) in *.
    destruct (g !! q) as [c|] eqn:Hq.
    + repeat split; [exact Hkeep | | exact Hnew].
      intros p [<-|Hp]; [eauto | auto].
    + repeat split.
      * intros p c Hp. destruct (decide (q = p)) as [<-|Hne].
        { apply Hkeep in Hp. congruence. }
        rewrite lookup_insert_ne by assumption. auto.
      * intros p [<-|Hp]; [rewrite lookup_insert_eq; eauto|].
        destruct (decide (q = p)) as [<-|Hne]; [rewrite lookup_insert_eq; eauto|].
        rewrite lookup_insert_ne by assumption. auto.
      * intros p. destruct (decide (q = p)) as [<-|Hne].
        { rewrite lookup_insert_eq. reflexivity. }
        rewrite lookup_insert_ne by assumption. apply Hnew.
Qed.

(** X6. When [__init__] returns, the output directory and all its parents
    exist; everything that was on disk before is still there unchanged, and
    the only new entries are directories.  The four output paths are the
    output directory joined with the model name and a fixed suffix. *)
Theorem init_creates_output_dir (mp od name : string) (w w' : World) (self : Converter) :
  __init__ L mp od name w = Ret self w' ->
  is_Some (fs w' !! output_dir self) /\
  (forall p, In p (path_parents L (output_dir self)) -> is_Some (fs w' !! p)) /\
  (forall p c, fs w !! p = Some c -> fs w' !! p = Some c) /\
  (forall p, fs w' !! p <> fs w !! p -> fs w' !! p = Some Dir) /\
  calls w' = (calls w ++ [Ev (Mkdir (output_dir self)) (inr tt)])%list /\
  onnx_path self = joinpath L (output_dir self) (model_name self ++ ".onnx") /\
  tflite_path self = joinpath L (output_dir self) (model_name self ++ ".tflite") /\
  tflite_fp16_path self = joinpath L (output_dir self) (model_name self ++ "_fp16.tflite") /\
  tflite_int8_path self = joinpath L (output_dir self) (model_name self ++ "_int8.tflite").
Proof.
  intros Hinit. pose proof (init_fields L _ _ _ _ _ _ Hinit) as ->.
  cbn [output_dir model_name onnx_path tflite_path tflite_fp16_path tflite_int8_path].
  revert Hinit. unfold __init__. open_monad. tidy.
  case_call; [discriminate|]. intros [= <-]. tidy. destruct u.
  destruct (mkdir_steps (Path L od :: path_parents L (Path L od)) (fs w))
    as (Hkeep & Hin & Hnew).
  unfold mkdir_p.
  split; [apply Hin; left; reflexivity|].
  split; [intros p Hp; apply Hin; right; exact Hp|].
  split; [exact Hkeep|]. split; [exact Hnew|]. repeat split.
Qed.

(** ** Failures and the exit status *)

Lemma load_raises (self : Converter) (w : World) e :
  oracle L YoloModel (fs w) (calls w) (YOLO (model_path self)) = inl e ->
  load_yolo_model L self w =
  Raise e (mkWorld (fs w) (calls w ++ [Ev (YOLO (model_path self)) (inl e)])
             (logs w ++ [(INFO, LoadingModel (model_path self)); (ERROR, LoadFailed e)])).
Proof.
  intros He. unfold load_yolo_model. open_monad. tidy. rewrite He. tidy.
  rewrite <- app_assoc. reflexivity.
Qed.

(** X7. When the weights do not load, the exception that [YOLO] raised is
    logged and re-raised by [load_yolo_model], reaches the handler of [main]
    in either mode, and [main] returns 1.  The load is the only call made
    after the constructor, and the disk is as the constructor left it. *)
Theorem load_failure_exits_1 (args : Args) (w w1 : World) (conv : Converter) e :
  is_Some (fs w !! Path L (args_model_path args)) ->
  __init__ L (args_model_path args) (args_output_dir args) (args_model_name args) w
    = Ret conv w1 ->
  oracle L YoloModel (fs w1) (calls w1) (YOLO (model_path conv)) = inl e ->
  main L args w =
  Ret 1 (mkWorld (fs w1)
           (calls w1 ++ [Ev (YOLO (model_path conv)) (inl e)])
           (logs w1 ++ [(INFO, LoadingModel (model_path conv)); (ERROR, LoadFailed e);
                        (ERROR, FailedWith e)])).
Proof.
  intros Hp Hinit He.
  pose proof (main_conversion L args w conv w1 Hp Hinit) as Hm.
  assert (Hrun : requested_conversion L conv (args_quantization args) w1 =
                 Raise e (mkWorld (fs w1) (calls w1 ++ [Ev (YOLO (model_path conv)) (inl e)])
                            (logs w1 ++ [(INFO, LoadingModel (model_path conv));
                                         (ERROR, LoadFailed e)]))).
  { unfold requested_conversion, convert_all_variants.
    destruct (String.eqb _ _); rewrite bind_unfold, (load_raises _ _ _ He); reflexivity. }
  rewrite Hrun in Hm. rewrite Hm. unfold logged. tidy.
  rewrite <- app_assoc. reflexivity.
Qed.

(** X8. When the export step returns [False], the run stops there in either
    mode: no convert step is attempted and no metadata is written.  [main]
    logs the failure and returns 1 in the world the export step left. *)
Theorem failed_export_stops_run (args : Args) (w w1 w2 w3 : World) (conv : Converter)
    (model : YoloModel) :
  is_Some (fs w !! Path L (args_model_path args)) ->
  __init__ L (args_model_path args) (args_output_dir args) (args_model_name args) w
    = Ret conv w1 ->
  load_yolo_model L conv w1 = Ret model w2 ->
  export_to_onnx L conv model w2 = Ret false w3 ->
  main L args w = Ret 1 (logged w3 (ERROR, ConversionFailed)).
Proof.
  intros Hp Hinit Hload Hexp.
  pose proof (main_conversion L args w conv w1 Hp Hinit) as Hm.
  assert (Hrun : requested_conversion L conv (args_quantization args) w1 = Ret false w3).
  { unfold requested_conversion, convert_all_variants.
    destruct (String.eqb _ _); rewrite bind_unfold, Hload, bind_unfold, Hexp; reflexivity. }
  rewrite Hrun in Hm. exact Hm.
Qed.

(** X9. With a single quantization mode, a metadata write that raises turns
    the run into a failure even when the convert step returned [True]: the
    exception is caught at the top of [main], which returns 1.  Nothing is
    cleaned up: the disk is as the convert step left it, except possibly for
    the metadata file, which then holds whatever text the failed dump got
    through (none, if the dump failed at once). *)
Theorem metadata_failure_exits_1 (args : Args) (w w1 w2 w3 w4 w5 : World)
    (conv : Converter) (model : YoloModel) e :
  String.eqb (args_quantization args) "all" = false ->
  is_Some (fs w !! Path L (args_model_path args)) ->
  __init__ L (args_model_path args) (args_output_dir args) (args_model_name args) w
    = Ret conv w1 ->
  load_yolo_model L conv w1 = Ret model w2 ->
  export_to_onnx L conv model w2 = Ret true w3 ->
  convert_to_tflite L conv (args_quantization args) w3 = Ret true w4 ->
  create_model_metadata L conv w4 = Raise e w5 ->
  main L args w = Ret 1 (logged w5 (ERROR, FailedWith e)) /\
  (fs w5 = fs w4 \/
   exists text, fs w5 = <[metadata_path L conv := Blob text]> (fs w4)) /\
  (forall p, p <> metadata_path L conv -> fs w5 !! p = fs w4 !! p).
Proof.
  intros Hq Hp Hinit Hload Hexp Hconv Hmeta.
  pose proof (main_conversion L args w conv w1 Hp Hinit) as Hm.
  assert (Hrun : requested_conversion L conv (args_quantization args) w1 = Raise e w5).
  { unfold requested_conversion. rewrite Hq.
    rewrite bind_unfold, Hload, bind_unfold, Hexp, bind_unfold, Hconv, bind_unfold, Hmeta.
    reflexivity. }
  rewrite Hrun in Hm. split; [exact Hm|].
  assert (Hdisk : fs w5 = fs w4 \/
                  exists text, fs w5 = <[metadata_path L conv := Blob text]> (fs w4)).
  { revert Hmeta. unfold create_model_metadata. open_monad. tidy.
    repeat case_call; try discriminate; intros [= <- <-]; tidy; auto.
    right. eexists. rewrite insert_insert_eq. reflexivity. }
  split; [exact Hdisk|].
  intros p Hne. destruct Hdisk as [->|[text ->]]; [reflexivity|].
  apply lookup_insert_ne. congruence.
Qed.

(** ** What a successful run delivers *)





(** ** Synthesised inputs *)

(** X12. Casting an array with elements in [[0, 1)] to float16, float32 or
    float64 with [astype] keeps its shape, gives it the requested dtype, and
    leaves every element in [[0, 1]]. *)
Theorem astype_float_stays_in_unit_interval (d : DType) (a : NdArray) (prec emax : Z) :
  float_format d = Some (prec, emax) ->
  (forall i, in_unit (data a i) = true) ->
  let t := astype L d a in
  dtype t = d /\ shape t = shape a /\
  forall i, data t i = round_to prec emax (data a i) /\ in_closed_unit (data t i) = true.
Proof.
  intros Hfmt Hunit. cbv zeta. unfold astype. rewrite Hfmt.
  cbn [dtype shape data]. split; [reflexivity|]. split; [reflexivity|].
  intros i. split; [reflexivity|].
  destruct d; try discriminate; injection Hfmt as <- <-;
    apply round_to_unit; try lia; apply Hunit.
Qed.

(** ** The validation step, when it succeeds *)

(** X13. When [_verify_tflite_model] returns [True] it has made exactly
    these calls, in this order: load the artifact, allocate tensors, read the
    input and output details, draw one input of the declared input shape
    (with [randint(0, 256)] as uint8 when the declared dtype is uint8, with
    [random()] cast to the declared dtype otherwise), set it at the declared
    input index, invoke once, and read the output at the declared output
    index; its last log line is the shape of that output. *)
Theorem validation_success_trace (self : Converter) (p : string) (w w' : World) :
  _verify_tflite_model L self p w = Ret true w' ->
  exists i0 ins o0 outs x out draw,
    (if DType_eqb (td_dtype i0) np_uint8
     then draw = Ev (RandomRandint 0 256 (td_shape i0) np_uint8) (inr x)
     else exists a, draw = Ev (RandomRandom (td_shape i0)) (inr a) /\
                    x = astype L (td_dtype i0) a) /\
    calls w' =
      (calls w ++
       [Ev (Interpreter p) (inr tt); Ev AllocateTensors (inr tt);
        Ev GetInputDetails (inr (i0 :: ins)); Ev GetOutputDetails (inr (o0 :: outs));
        draw; Ev (SetTensor (td_index i0) x) (inr tt); Ev Invoke (inr tt);
        Ev (GetTensor (td_index o0)) (inr out)])%list /\
    last (logs w') = Some (INFO, TestOutputShape (shape out)).
Proof.
  unfold _verify_tflite_model, try_except.
  match goal with
  | |- match ?body w with _ => _ end = _ -> _ =>
      destruct (body w) as [b w1|e w1] eqn:Hbody; [|discriminate]
  end.
  intros [= -> ->].
  apply bind_ret_inv in Hbody as ([] & w2 & H1 & Hbody). apply log_ret_inv in H1 as ->.
  apply bind_ret_inv in Hbody as ([] & w2 & H1 & Hbody).
  apply call_ret_inv in H1 as [_ ->].
  apply bind_ret_inv in Hbody as ([] & w2 & H1 & Hbody).
  apply call_ret_inv in H1 as [_ ->].
  apply bind_ret_inv in Hbody as (ins0 & w2 & H1 & Hbody).
  apply call_ret_inv in H1 as [_ ->].
  apply bind_ret_inv in Hbody as (outs0 & w2 & H1 & Hbody).
  apply call_ret_inv in H1 as [_ ->].
  apply bind_ret_inv in Hbody as (i0 & w2 & H1 & Hbody).
  destruct ins0 as [|i0' ins]; [discriminate|]. injection H1 as -> <-.
  apply bind_ret_inv in Hbody as ([] & w2 & H1 & Hbody). apply log_ret_inv in H1 as ->.
  apply bind_ret_inv in Hbody as ([] & w2 & H1 & Hbody). apply log_ret_inv in H1 as ->.
  apply bind_ret_inv in Hbody as (o0 & w2 & H1 & Hbody).
  destruct outs0 as [|o0' outs]; [discriminate|]. injection H1 as -> <-.
  apply bind_ret_inv in Hbody as ([] & w2 & H1 & Hbody). apply log_ret_inv in H1 as ->.
  apply bind_ret_inv in Hbody as ([] & w2 & H1 & Hbody). apply log_ret_inv in H1 as ->.
  apply bind_ret_inv in Hbody as (x & w2 & Hdraw & Hbody).
  apply bind_ret_inv in Hbody as ([] & w3 & H1 & Hbody).
  apply call_ret_inv in H1 as [_ ->].
  apply bind_ret_inv in Hbody as ([] & w3 & H1 & Hbody).
  apply call_ret_inv in H1 as [_ ->].
  apply bind_ret_inv in Hbody as (out & w3 & H1 & Hbody).
  apply call_ret_inv in H1 as [_ ->].
  apply bind_ret_inv in Hbody as ([] & w3 & H1 & Hbody). apply log_ret_inv in H1 as ->.
  injection Hbody as <-.
  exists i0, ins, o0, outs, x, out.
  destruct (DType_eqb (td_dtype i0) np_uint8).
  - apply call_ret_inv in Hdraw as [_ ->]. eexists. split; [reflexivity|].
    unfold logged. tidy. rewrite <- !app_assoc. cbn [app].
    split; [reflexivity | rewrite last_app; reflexivity].
  - apply bind_ret_inv in Hdraw as (a & w0 & H1 & Hdraw).
    apply call_ret_inv in H1 as [_ ->]. injection Hdraw as <- <-.
    eexists. split; [eexists; split; reflexivity|].
    unfold logged. tidy. rewrite <- !app_assoc. cbn [app].
    split; [reflexivity | rewrite last_app; reflexivity].
Qed.

(** ** The metadata in all-variants mode *)

(** X14. In all-variants mode a failed variant does not stop the run: when
    [convert_all_variants] returns [False] after the weights loaded, either
    the export returned [False] and nothing was written after it, or the
    export returned [True], all three convert steps were run, and the
    metadata document is on disk. *)
Theorem all_variants_failure_still_writes_metadata (self : Converter) (w w' : World)
    (model : YoloModel) (w1 : World) :
  load_yolo_model L self w = Ret model w1 ->
  convert_all_variants L self w = Ret false w' ->
  export_to_onnx L self model w1 = Ret false w' \/
  (exists w2, export_to_onnx L self model w1 = Ret true w2 /\
              fs w' !! metadata_path L self = Some (Json (metadata self)) /\
              convert_attempts (logs w') =
                (convert_attempts (logs w2) ++ ["none"; "fp16"; "int8"])%list).
Proof.
  intros Hload. unfold convert_all_variants. rewrite bind_unfold, Hload, bind_unfold.
  destruct (export_total L self model w1) as ([] & w2 & Hexp); rewrite Hexp;
    [|intros [= <-]; left; reflexivity].
  cbn [negb]. intros Hrun. right. exists w2. split; [reflexivity|].
  apply bind_ret_inv in Hrun as (success & w5 & Hloop & Hrun).
  apply bind_ret_inv in Hrun as ([] & w6 & Hmeta & Hrun). injection Hrun as -> <-.
  apply metadata_written in Hmeta as (Hfs & Hlogs).
  split; [rewrite Hfs; apply lookup_insert_eq|].
  destruct (emits_variants L self w2) as (new & Hnew & _ & Hconv).
  rewrite Hloop in Hnew. cbn [world_of] in Hnew.
  rewrite Hlogs, Hnew, !convert_attempts_app, Hconv. cbn. rewrite app_nil_r. reflexivity.
Qed.

End More.

(** * Runs on the sample library *)

(** A run is determined by what it returns: the world need not be written
    out to state that a computation returned. *)
Lemma returns_world {A} (r : Res A) (a : A) :
  returns r = Some a -> r = Ret a (world_of r).
Proof. destruct r; [intros [= ->]; reflexivity | discriminate]. Qed.

Ltac by_running :=
  match goal with
  | |- ?m = Ret ?a _ => refine (returns_world m a _); vm_compute; reflexivity
  end.

Lemma raises_world {A} (r : Res A) (e : Exn) :
  match r with Ret _ _ => None | Raise e' _ => Some e' end = Some e ->
  r = Raise e (world_of r).
Proof. destruct r; [discriminate | intros [= ->]; reflexivity]. Qed.

Ltac by_raising :=
  match goal with
  | |- ?m = Raise ?e _ => refine (raises_world m e _); vm_compute; reflexivity
  end.

Example sample_stem : Sample.stem "weights/best.pt" = "weights/best".
Proof. reflexivity. Qed.

Example sample_main_all :
  exit_status (main Sample.good (Sample.args "all") Sample.world) = 0.
Proof. vm_compute. reflexivity. Qed.

Example sample_main_all_attempts :
  let w := world_of (main Sample.good (Sample.args "all") Sample.world) in
  export_attempts (logs w) = 1%nat /\ convert_attempts (logs w) = ["none"; "fp16"; "int8"].
Proof. vm_compute. split; reflexivity. Qed.

Example sample_main_missing :
  exit_status (main Sample.good (Sample.args "all") Sample.empty_world) = 1.
Proof. vm_compute. reflexivity. Qed.

(** C1 on the sample library: all three convert steps succeed and so does
    the run. *)
Lemma C1_sample_run :
  exists r1 r2 r3,
    returns (convert_all_variants Sample.good (Sample.converter Sample.good) Sample.world)
    = Some (r1 && r2 && r3).
Proof.
  pose (L := Sample.good). pose (self := Sample.converter L).
  pose (w1 := world_of (load_yolo_model L self Sample.world)).
  pose (w2 := world_of (export_to_onnx L self Sample.model w1)).
  assert (Hload : load_yolo_model L self Sample.world = Ret Sample.model w1)
    by by_running.
  assert (Hexp : export_to_onnx L self Sample.model w1 = Ret true w2)
    by by_running.
  destruct (C1_aggregate_is_and_of_convert_steps L self) as (_ & _ & _ & _ & _ & _ & H).
  destruct (H Sample.world Sample.model w1 w2 Hload Hexp)
    as (r1 & w3 & r2 & w4 & r3 & w5 & _ & _ & _ & Hall).
  exists r1, r2, r3. fold L self. rewrite Hall.
  vm_compute. reflexivity.
Defined.

(** C2 on the sample library with an empty disk. *)
Lemma C2_sample_run :
  exit_status (main Sample.good (Sample.args "all") Sample.empty_world) = 1 /\
  calls (world_of (main Sample.good (Sample.args "all") Sample.empty_world)) = [].
Proof.
  assert (Hmissing :
    fs Sample.empty_world !! Path Sample.good (args_model_path (Sample.args "all")) = None)
    by (vm_compute; reflexivity).
  destruct (C2_missing_source_exits_before_any_effect Sample.good (Sample.args "all")
              Sample.empty_world Hmissing) as (w' & Hmain & Hexit & _ & Hcalls & _).
  split; [exact Hexit|]. rewrite Hmain. exact Hcalls.
Defined.

(** C3 on the sample library: a run whose weights load, and a run whose
    weights do not. *)
Lemma C3_sample_run :
  (let w := world_of (convert_all_variants Sample.good (Sample.converter Sample.good)
                        Sample.world) in
   export_attempts (logs w) = 1%nat /\
   convert_attempts (logs w) = ["none"; "fp16"; "int8"]) /\
  (let r := convert_all_variants Sample.bad_load (Sample.converter Sample.bad_load)
              Sample.world in
   returns r = None /\
   export_attempts (logs (world_of r)) = 0%nat /\
   convert_attempts (logs (world_of r)) = []).
Proof.
  split.
  - pose (L := Sample.good). pose (self := Sample.converter L).
    pose (w1 := world_of (load_yolo_model L self Sample.world)).
    assert (Hload : load_yolo_model L self Sample.world = Ret Sample.model w1)
      by by_running.
    destruct (proj1 (C3_export_once_then_three_converts L self Sample.world)
                Sample.model w1 Hload)
      as (new & ok & w2 & Hlogs & Hexp & Hone & Hconv).
    assert (Hok : ok = true).
    { assert (Hexp' : returns (export_to_onnx L self Sample.model w1) = Some true)
        by (vm_compute; reflexivity).
      rewrite Hexp in Hexp'. injection Hexp' as ->. reflexivity. }
    subst ok. cbv zeta. fold L self. rewrite Hlogs. auto.
  - pose (L := Sample.bad_load). pose (self := Sample.converter L).
    pose (w1 := world_of (load_yolo_model L self Sample.world)).
    assert (Hload : load_yolo_model L self Sample.world = Raise (LibError "failed") w1)
      by by_raising.
    destruct (proj2 (C3_export_once_then_three_converts L self Sample.world)
                (LibError "failed") w1 Hload)
      as (Hrun & _ & _ & _ & new & Hlogs & Hnone & Hconv).
    cbv zeta. fold L self. rewrite Hrun. cbn [returns world_of]. rewrite Hlogs.
    auto.
Defined.

(** C3 as stated fails when the weights do not load: the run raises and
    the export step is never attempted. *)
Lemma C3_load_failure_no_export :
  let r := convert_all_variants Sample.bad_load (Sample.converter Sample.bad_load)
             Sample.world in
  returns r = None /\
  export_attempts (logs (world_of r)) = 0%nat /\
  existsb is_export_call (calls (world_of r)) = false.
Proof. vm_compute. repeat split. Qed.




(** C6 on the sample library. *)
Lemma C6_sample_run :
  let L := Sample.good in
  let self := Sample.converter L in
  exists file doc,
    fs (world_of (create_model_metadata L self Sample.world))
      !! "models/golf_metadata.json" = Some file /\
    json_load file = Some doc /\
    py_get doc "classes" = Some (PyList [PyStr "ball"; PyStr "club_head"]) /\
    py_get doc "confidence_threshold" = Some (PyFloat float_0_25) /\
    py_get doc "nms_threshold" = Some (PyFloat float_0_45) /\
    py_get doc "input_shape" = Some (PyList [PyInt 1; PyInt 640; PyInt 640; PyInt 3]).
Proof.
  intros L self.
  pose (w1 := world_of (__init__ L "weights/best.pt" "models" "golf" Sample.world)).
  pose (w' := world_of (create_model_metadata L self Sample.world)).
  assert (Hinit : __init__ L "weights/best.pt" "models" "golf" Sample.world = Ret self w1)
    by by_running.
  assert (Hmeta : create_model_metadata L self Sample.world = Ret tt w')
    by by_running.
  exact (C6_metadata_contents L "weights/best.pt" "models" "golf" Sample.world w1
           Sample.world w' self Hinit Hmeta).
Defined.

(** C7 on the sample library: the export leaves [weights/best.onnx], which
    is renamed to [models/golf.onnx]. *)
Lemma C7_sample_run :
  let L := Sample.good in
  let self := Sample.converter L in
  let w' := world_of (export_to_onnx L self Sample.model Sample.world) in
  existsb is_rename_call (calls w') = true /\
  fs w' !! "models/golf.onnx" = Some (Blob []) /\
  fs w' !! "weights/best.onnx" = None.
Proof.
  intros L self w'.
  assert (Hexp : export_to_onnx L self Sample.model Sample.world = Ret true w')
    by by_running.
  destruct (C7_export_relocates_existing_output L self Sample.model Sample.world w' Hexp)
    as (f & rest & Hf & Hfs & Hcalls & _).
  assert (Hf' : f = <["weights/best.onnx" := Blob []]> (fs Sample.world)).
  { assert (Ho : oracle L FS (fs Sample.world) (calls Sample.world)
                   (ModelExport Sample.model "onnx" (input_size self) false true 11)
                 = inr (<["weights/best.onnx" := Blob []]> (fs Sample.world)))
      by reflexivity.
    rewrite Ho in Hf. injection Hf as <-. reflexivity. }
  subst f. rewrite Hcalls, Hfs. vm_compute. repeat split.
Defined.

(** C7 as stated fails when the export leaves no file at the default
    place: the step returns [True] and has renamed nothing, and nothing is at
    the interchange path. *)
Lemma C7_no_output_no_relocation :
  let L := Sample.no_output in
  let self := Sample.converter L in
  let r := export_to_onnx L self Sample.model Sample.world in
  returns r = Some true /\
  existsb is_rename_call (calls (world_of r)) = false /\
  fs (world_of r) !! onnx_path self = None.
Proof. vm_compute. repeat split. Qed.

(** C8 on the sample library: a full int8 conversion exits with 0, and a
    conversion whose converter cannot be created exits with 1. *)
Lemma C8_sample_run :
  exit_status (main Sample.good (Sample.args "int8") Sample.world) = 0 /\
  exit_status (main Sample.bad_from_onnx (Sample.args "int8") Sample.world) = 1.
Proof.
  split.
  - pose (L := Sample.good). pose (self := Sample.converter L).
    pose (w1 := world_of (__init__ L "weights/best.pt" "models" "golf" Sample.world)).
    pose (w2 := world_of (requested_conversion L self "int8" w1)).
    destruct (C8_exit_status L (Sample.args "int8") Sample.world) as (_ & Hiff & _).
    apply Hiff. exists self, w1, w2.
    split; [exists (Blob []); vm_compute; reflexivity|].
    split; by_running.
  - pose (L := Sample.bad_from_onnx). pose (self := Sample.converter L).
    pose (w1 := world_of (__init__ L "weights/best.pt" "models" "golf" Sample.world)).
    pose (w2 := world_of (requested_conversion L self "int8" w1)).
    destruct (C8_exit_status L (Sample.args "int8") Sample.world)
      as (_ & _ & _ & _ & _ & Hfalse).
    apply (Hfalse self w1 w2).
    + exists (Blob []). vm_compute. reflexivity.
    + by_running.
    + by_running.
Defined.

(** C9 on a library whose checker rejects the model: the verification
    returns [False] and the export still returns [True]. *)
Lemma C9_sample_run :
  let L := Sample.bad_check in
  let self := Sample.converter L in
  returns (export_to_onnx L self Sample.model Sample.world) = Some true /\
  exists w1, export_and_relocate L self Sample.model Sample.world = Ret tt w1 /\
             returns (_verify_onnx_model L self w1) = Some false.
Proof.
  intros L self.
  pose (w1 := world_of (export_and_relocate L self Sample.model Sample.world)).
  pose (w2 := world_of (_verify_onnx_model L self w1)).
  assert (Hpre : export_and_relocate L self Sample.model Sample.world = Ret tt w1)
    by by_running.
  assert (Hver : _verify_onnx_model L self w1 = Ret false w2)
    by by_running.
  destruct (C9_export_succeeds_whatever_verification_says L self Sample.model) as [_ H].
  rewrite (H Sample.world w1 false w2 Hpre Hver).
  split; [reflexivity|]. exists w1. split; [exact Hpre|]. rewrite Hver. reflexivity.
Defined.

(** C10 on a library whose converter cannot be created: the run exits with
    1 and the metadata file is on disk. *)
Lemma C10_sample_run :
  let L := Sample.bad_from_onnx in
  let r := main L (Sample.args "int8") Sample.world in
  exit_status r = 1 /\
  fs (world_of r) !! "models/golf_metadata.json"
    = Some (Json (metadata (Sample.converter L))).
Proof.
  intros L r.
  pose (self := Sample.converter L). pose (args := Sample.args "int8").
  pose (w1 := world_of (__init__ L "weights/best.pt" "models" "golf" Sample.world)).
  pose (w2 := world_of (load_yolo_model L self w1)).
  pose (w3 := world_of (export_to_onnx L self Sample.model w2)).
  pose (w4 := world_of (convert_to_tflite L self "int8" w3)).
  pose (w5 := world_of (create_model_metadata L self w4)).
  assert (Hq : String.eqb (args_quantization args) "all" = false) by reflexivity.
  assert (Hp : is_Some (fs Sample.world !! Path L (args_model_path args)))
    by (exists (Blob []); vm_compute; reflexivity).
  assert (Hinit : __init__ L (args_model_path args) (args_output_dir args)
                    (args_model_name args) Sample.world = Ret self w1)
    by by_running.
  assert (Hload : load_yolo_model L self w1 = Ret Sample.model w2)
    by by_running.
  assert (Hexp : export_to_onnx L self Sample.model w2 = Ret true w3)
    by by_running.
  assert (Hconv : convert_to_tflite L self (args_quantization args) w3 = Ret false w4)
    by by_running.
  assert (Hmeta : create_model_metadata L self w4 = Ret tt w5)
    by by_running.
  destruct (C10_metadata_written_after_failed_convert L args Sample.world w1 w2 w3 w4 w5
              self Sample.model false Hq Hp Hinit Hload Hexp Hconv Hmeta)
    as (Hexit & Hfile & _).
  split; [exact Hexit | exact Hfile].
Defined.

(** ** The further properties on the sample library *)

Lemma verify_onnx_sample :
  let L := Sample.good in
  let self := Sample.converter L in
  exists m,
    oracle L OnnxModel (fs Sample.world) (calls Sample.world) (OnnxLoad (onnx_path self))
      = inr m /\
    oracle L unit (fs Sample.world)
      (calls Sample.world ++ [Ev (OnnxLoad (onnx_path self)) (inr m)]) (OnnxCheckModel m)
      = inr tt /\
    graph_input m <> [] /\ graph_output m <> [].
Proof.
  intros L self.
  apply (proj1 (verify_onnx_true_iff L self Sample.world)).
  eexists. by_running.
Defined.

Lemma convert_success_sample :
  let L := Sample.good in
  let w' := world_of (convert_to_tflite L (Sample.converter L) "fp16" Sample.world) in
  exists b, fs w' !! "models/golf_fp16.tflite" = Some (Blob b).
Proof.
  intros L w'. pose (self := Sample.converter L).
  assert (Hconv : convert_to_tflite L self "fp16" Sample.world = Ret true w')
    by by_running.
  destruct (convert_success_writes_artifact L self "fp16" Sample.world w' Hconv)
    as (b & settings & Hfs & _).
  exists b. rewrite Hfs. vm_compute. reflexivity.
Defined.

Lemma convert_failure_sample :
  let L := Sample.bad_write in
  let w' := world_of (convert_to_tflite L (Sample.converter L) "none" Sample.world) in
  fs w' = fs Sample.world \/
  exists tflite_model settings n,
    In (Ev (Convert settings) (inr tflite_model)) (calls w') /\
    fs w' = <["models/golf.tflite" := Blob (take n tflite_model)]> (fs Sample.world).
Proof.
  intros L w'. pose (self := Sample.converter L).
  assert (Hconv : convert_to_tflite L self "none" Sample.world = Ret false w')
    by by_running.
  exact (convert_failure_leaves_old_or_partial L self "none" Sample.world w' Hconv).
Defined.

(** On that library the failed write leaves the first two bytes of the
    artifact at the output path. *)
Example sample_partial_artifact :
  let L := Sample.bad_write in
  fs (world_of (convert_to_tflite L (Sample.converter L) "none" Sample.world))
    !! "models/golf.tflite" = Some (Blob [Byte.x54; Byte.x46]).
Proof. vm_compute. reflexivity. Qed.

(** The export step on a converter whose source path is the current
    directory: the export returns, [with_suffix] raises, and the step
    returns [False] without renaming or verifying anything. *)
Example sample_export_empty_name :
  let L := Sample.good in
  let self := mkConverter "." "models" "golf" 640 "models/golf.onnx" "models/golf.tflite"
                "models/golf_fp16.tflite" "models/golf_int8.tflite" in
  let r := export_to_onnx L self Sample.model Sample.world in
  returns r = Some false /\
  last (logs (world_of r)) = Some (ERROR, ExportFailed (ValueError ".")) /\
  length (calls (world_of r)) = 1%nat.
Proof. vm_compute. repeat split. Qed.

(** On a library whose dump fails, the run leaves the opening brace in the
    metadata file. *)
Example sample_partial_metadata :
  fs (world_of (main Sample.bad_dump (Sample.args "fp16") Sample.world))
    !! "models/golf_metadata.json" = Some (Blob [Byte.x7b]).
Proof. vm_compute. reflexivity. Qed.

Lemma init_sample :
  let L := Sample.good in
  let w' := world_of (__init__ L "weights/best.pt" "models" "golf" Sample.world) in
  is_Some (fs w' !! "models") /\ fs w' !! "weights/best.pt" = Some (Blob []).
Proof.
  intros L w'. pose (self := Sample.converter L).
  assert (Hinit : __init__ L "weights/best.pt" "models" "golf" Sample.world = Ret self w')
    by by_running.
  destruct (init_creates_output_dir L "weights/best.pt" "models" "golf" Sample.world w'
              self Hinit) as (Hdir & _ & Hkeep & _).
  split; [exact Hdir|]. apply Hkeep. vm_compute. reflexivity.
Defined.

Lemma load_failure_sample :
  exit_status (main Sample.bad_load (Sample.args "all") Sample.world) = 1.
Proof.
  pose (L := Sample.bad_load). pose (args := Sample.args "all").
  pose (self := Sample.converter L).
  pose (w1 := world_of (__init__ L "weights/best.pt" "models" "golf" Sample.world)).
  assert (Hp : is_Some (fs Sample.world !! Path L (args_model_path args)))
    by (exists (Blob []); vm_compute; reflexivity).
  assert (Hinit : __init__ L (args_model_path args) (args_output_dir args)
                    (args_model_name args) Sample.world = Ret self w1)
    by by_running.
  assert (Hload : oracle L YoloModel (fs w1) (calls w1) (YOLO (model_path self))
                  = inl (LibError "failed")) by reflexivity.
  change (exit_status (main L args Sample.world) = 1).
  rewrite (load_failure_exits_1 L args Sample.world w1 self (LibError "failed")
             Hp Hinit Hload).
  reflexivity.
Defined.

Lemma failed_export_sample :
  exit_status (main Sample.bad_export (Sample.args "fp16") Sample.world) = 1.
Proof.
  pose (L := Sample.bad_export). pose (args := Sample.args "fp16").
  pose (self := Sample.converter L).
  pose (w1 := world_of (__init__ L "weights/best.pt" "models" "golf" Sample.world)).
  pose (w2 := world_of (load_yolo_model L self w1)).
  pose (w3 := world_of (export_to_onnx L self Sample.model w2)).
  assert (Hp : is_Some (fs Sample.world !! Path L (args_model_path args)))
    by (exists (Blob []); vm_compute; reflexivity).
  assert (Hinit : __init__ L (args_model_path args) (args_output_dir args)
                    (args_model_name args) Sample.world = Ret self w1)
    by by_running.
  assert (Hload : load_yolo_model L self w1 = Ret Sample.model w2) by by_running.
  assert (Hexp : export_to_onnx L self Sample.model w2 = Ret false w3) by by_running.
  change (exit_status (main L args Sample.world) = 1).
  rewrite (failed_export_stops_run L args Sample.world w1 w2 w3 self Sample.model
             Hp Hinit Hload Hexp).
  reflexivity.
Defined.

Lemma metadata_failure_sample :
  exit_status (main Sample.bad_dump (Sample.args "fp16") Sample.world) = 1.
Proof.
  pose (L := Sample.bad_dump). pose (args := Sample.args "fp16").
  pose (self := Sample.converter L).
  pose (w1 := world_of (__init__ L "weights/best.pt" "models" "golf" Sample.world)).
  pose (w2 := world_of (load_yolo_model L self w1)).
  pose (w3 := world_of (export_to_onnx L self Sample.model w2)).
  pose (w4 := world_of (convert_to_tflite L self "fp16" w3)).
  pose (w5 := world_of (create_model_metadata L self w4)).
  assert (Hq : String.eqb (args_quantization args) "all" = false) by reflexivity.
  assert (Hp : is_Some (fs Sample.world !! Path L (args_model_path args)))
    by (exists (Blob []); vm_compute; reflexivity).
  assert (Hinit : __init__ L (args_model_path args) (args_output_dir args)
                    (args_model_name args) Sample.world = Ret self w1)
    by by_running.
  assert (Hload : load_yolo_model L self w1 = Ret Sample.model w2) by by_running.
  assert (Hexp : export_to_onnx L self Sample.model w2 = Ret true w3) by by_running.
  assert (Hconv : convert_to_tflite L self (args_quantization args) w3 = Ret true w4)
    by by_running.
  assert (Hmeta : create_model_metadata L self w4 = Raise (LibError "failed") w5)
    by by_raising.
  change (exit_status (main L args Sample.world) = 1).
  rewrite (proj1 (metadata_failure_exits_1 L args Sample.world w1 w2 w3 w4 w5 self
                    Sample.model (LibError "failed") Hq Hp Hinit Hload Hexp Hconv Hmeta)).
  reflexivity.
Defined.



Lemma astype_sample :
  let t := astype Sample.good np_float16
             (Sample.constant_array Sample.below_one np_float64 [1; 640; 640; 3]) in
  dtype t = np_float16 /\ in_closed_unit (data t 0%N) = true.
Proof.
  intros t.
  assert (Hfmt : float_format np_float16 = Some (11, 16)) by reflexivity.
  assert (Hunit : forall i : N,
             in_unit (data (Sample.constant_array Sample.below_one np_float64
                              [1; 640; 640; 3]) i) = true)
    by (intros i; vm_compute; reflexivity).
  destruct (astype_float_stays_in_unit_interval Sample.good np_float16
              (Sample.constant_array Sample.below_one np_float64 [1; 640; 640; 3])
              11 16 Hfmt Hunit) as (Hd & _ & Hdata).
  split; [exact Hd | exact (proj2 (Hdata 0%N))].
Defined.

Lemma validation_success_sample :
  let L := Sample.good in
  let self := Sample.converter L in
  let w' := world_of (_verify_tflite_model L self "models/golf.tflite" Sample.world) in
  exists out, last (logs w') = Some (INFO, TestOutputShape (shape out)).
Proof.
  intros L self w'.
  assert (Hv : _verify_tflite_model L self "models/golf.tflite" Sample.world = Ret true w')
    by by_running.
  destruct (validation_success_trace L self "models/golf.tflite" Sample.world w' Hv)
    as (i0 & ins & o0 & outs & x & out & draw & _ & _ & Hlast).
  exists out. exact Hlast.
Defined.

Lemma all_variants_failure_sample :
  let L := Sample.bad_from_onnx in
  let self := Sample.converter L in
  let w1 := world_of (load_yolo_model L self Sample.world) in
  let w' := world_of (convert_all_variants L self Sample.world) in
  export_to_onnx L self Sample.model w1 = Ret false w' \/
  (exists w2, export_to_onnx L self Sample.model w1 = Ret true w2 /\
              fs w' !! metadata_path L self = Some (Json (metadata self)) /\
              convert_attempts (logs w') =
                (convert_attempts (logs w2) ++ ["none"; "fp16"; "int8"])%list).
Proof.
  intros L self w1 w'.
  assert (Hload : load_yolo_model L self Sample.world = Ret Sample.model w1)
    by by_running.
  assert (Hall : convert_all_variants L self Sample.world = Ret false w') by by_running.
  exact (all_variants_failure_still_writes_metadata L self Sample.world w' Sample.model w1
           Hload Hall).
Defined.
